(** * Pre-publish checklist and import verifier: a shallow embedding

    The two scripts of the repository are embedded as Rocq functions:

    - [pre_publish_checklist.py]: the five checks and [main];
    - [test_import.py]: the import smoke test.

    Text.  A Python [str] is modelled as a [list ascii]; an [ascii] stands
    for a code point in the range U+0000..U+00FF.  On that range
    [str.lower] and the regular-expression class [\s] are modelled exactly.
    A file's [content] is what [f.read()] returns in text mode.

    Console.  Every [print] of the scripts is a constructor of [message];
    the doc comment of each constructor quotes the printed text, and the
    interpolated values are the constructor's arguments.

    Files.  The working directory is a function from paths to [fsnode]s; a
    path that exists but cannot be opened or read (a directory, a
    permission error, a decoding error) is [Unreadable], and opening it
    raises.  The model covers the working directories in which
    [Path.exists] answers; one in which the call itself raises (a parent
    directory that may not be searched, on a Python whose [exists]
    re-raises that error) is not a [filesystem]. *)

From Stdlib Require Import List Bool Arith Lia Ascii String ZArith.
Import ListNotations.

(** ** Text *)

Definition text := list ascii.

Definition str (s : string) : text := list_ascii_of_string s.

(** The double quote, U+0022. *)
Definition dquote : ascii := Ascii false true false false false true false false.

(** [prefix in s] at position 0: [s.startswith(p)]. *)
Fixpoint starts_with (p s : text) : bool :=
  match p, s with
  | [], _ => true
  | _ :: _, [] => false
  | a :: p', b :: s' => Ascii.eqb a b && starts_with p' s'
  end.

(** Python's [p in s] on strings. *)
Fixpoint contains (p s : text) : bool :=
  starts_with p s ||
  match s with
  | [] => false
  | _ :: s' => contains p s'
  end.

(** [str.lower] on one code point below U+0100: the letters A..Z and the
    capital letters U+00C0..U+00DE other than the multiplication sign
    U+00D7 move up by 32; every other code point is unchanged. *)
Definition lower_char (c : ascii) : ascii :=
  let n := nat_of_ascii c in
  if ((65 <=? n) && (n <=? 90)) ||
     ((192 <=? n) && (n <=? 222) && negb (n =? 215))
  then ascii_of_nat (n + 32)
  else c.

Definition lower (s : text) : text := map lower_char s.

(** The class [\s] of a [str] pattern, below U+0100: TAB, LF, VT, FF, CR,
    the separators U+001C..U+001F, SPACE, NEL (U+0085) and NBSP (U+00A0). *)
Definition isspace (c : ascii) : bool :=
  let n := nat_of_ascii c in
  ((9 <=? n) && (n <=? 13)) || ((28 <=? n) && (n <=? 32)) ||
  (n =? 133) || (n =? 160).

(** ** Regular expressions

    The fragment of Python's [re] the script uses: single characters and
    character classes, greedy and lazy repetition of a class, and one
    capturing group.  [match_here] follows the backtracking order of the
    [re] engine: a greedy repetition tries the longest run first, a lazy
    one the shortest. *)

Module Re.

Inductive cset : Type :=
| Lit (c : ascii)        (* the character itself *)
| NotLit (c : ascii)     (* [^c] *)
| Space                  (* \s *)
| AnyChar.               (* . under re.DOTALL *)

Inductive node : Type :=
| Chr (k : cset)
| Rep (greedy : bool) (k : cset)   (* k* when greedy, k*? otherwise *)
| GroupStart                       (* ( *)
| GroupEnd.                        (* ) *)

Definition regex := list node.

Definition accepts (k : cset) (c : ascii) : bool :=
  match k with
  | Lit a => Ascii.eqb a c
  | NotLit a => negb (Ascii.eqb a c)
  | Space => isspace c
  | AnyChar => true
  end.

(** A literal word of the pattern. *)
Definition lit (s : string) : regex := map (fun c => Chr (Lit c)) (str s).

(** [k+] is [k k*]. *)
Definition plus (k : cset) : regex := [Chr k; Rep true k].

(** The characters consumed inside the group are pushed on [acc]
    (latest first). *)
Definition push (cap : bool) (c : ascii) (acc : text) : text :=
  if cap then c :: acc else acc.

(** The repetition [k*] (greedy) or [k*?] (lazy) followed by the rest of
    the pattern, [next].  Greedy: take a character of the class and go on,
    and fall back on [next] when that fails.  Lazy: try [next] first, and
    take one more character of the class when it fails. *)
Fixpoint rep_loop (greedy : bool) (k : cset) (cap : bool)
  (next : text -> text -> option text) (acc : text) (s : text) {struct s}
  : option text :=
  if greedy then
    match s with
    | c :: s' =>
        if accepts k c then
          match rep_loop greedy k cap next (push cap c acc) s' with
          | Some g => Some g
          | None => next acc s
          end
        else next acc s
    | [] => next acc s
    end
  else
    match next acc s with
    | Some g => Some g
    | None =>
        match s with
        | c :: s' =>
            if accepts k c then rep_loop greedy k cap next (push cap c acc) s'
            else None
        | [] => None
        end
    end.

(** Match [re] at the start of [s]; the result is [group(1)]. *)
Fixpoint match_here (re : regex) (cap : bool) (acc : text) (s : text)
  : option text :=
  match re with
  | [] => Some (rev acc)
  | GroupStart :: re' => match_here re' true [] s
  | GroupEnd :: re' => match_here re' false acc s
  | Chr k :: re' =>
      match s with
      | c :: s' =>
          if accepts k c then match_here re' cap (push cap c acc) s' else None
      | [] => None
      end
  | Rep greedy k :: re' => rep_loop greedy k cap (match_here re' cap) acc s
  end.

(** [re.search]: the match at the leftmost position where one exists. *)
Fixpoint search (re : regex) (s : text) : option text :=
  match match_here re false [] s with
  | Some g => Some g
  | None =>
      match s with
      | [] => None
      | _ :: s' => search re s'
      end
  end.

(** No match starts at any of the first [n] positions of [s]. *)
Definition no_match_before (re : regex) (s : text) (n : nat) : bool :=
  forallb (fun k => match match_here re false [] (skipn k s) with
                    | Some _ => false
                    | None => true
                    end) (seq 0 n).

End Re.

Import Re.

(** The pattern [version\s*=\s*Q([^Q]+)Q], where Q is the double quote. *)
Definition pyproject_version_re : regex :=
  lit "version" ++
  [Rep true Space; Chr (Lit "="); Rep true Space; Chr (Lit dquote); GroupStart] ++
  plus (NotLit dquote) ++ [GroupEnd; Chr (Lit dquote)].

(** The pattern [__version__\s*=\s*Q([^Q]+)Q], where Q is the double quote. *)
Definition version_py_re : regex :=
  lit "__version__" ++
  [Rep true Space; Chr (Lit "="); Rep true Space; Chr (Lit dquote); GroupStart] ++
  plus (NotLit dquote) ++ [GroupEnd; Chr (Lit dquote)].

(** The pattern [dependencies\s*=\s*\[(.*?)\]], compiled with re.DOTALL. *)
Definition dependencies_re : regex :=
  lit "dependencies" ++
  [Rep true Space; Chr (Lit "="); Rep true Space; Chr (Lit "["); GroupStart;
   Rep false AnyChar; GroupEnd; Chr (Lit "]")].

(** ** The working directory *)

Inductive fsnode : Type :=
| Absent
| Unreadable (err : text)     (* exists; open/read raises [err] *)
| File (content : text).

Definition filesystem := string -> fsnode.

(** The answer of [Path(p).exists()], in a working directory in which the
    call answers. *)
Definition path_exists (fs : filesystem) (p : string) : bool :=
  match fs p with
  | Absent => false
  | _ => true
  end.

(** ** Console output *)

Inductive message : Type :=
| Banner                                  (* the title between two rules *)
| CheckingVersion                         (* Checking version consistency... *)
| PyprojectNotFound                       (* pyproject.toml not found *)
| VersionNotFoundInPyproject              (* Version not found in pyproject.toml *)
| VersionPyNotFound                       (* _version.py not found *)
| VersionNotFoundInVersionPy              (* Version not found in _version.py *)
| VersionMismatch (pyproject_version version_py_version : text)
      (* Version mismatch: pyproject.toml={..}, _version.py={..} *)
| VersionConsistent (pyproject_version : text)
      (* Version {..} is consistent *)
| CheckingRequiredFiles                   (* Checking required files... *)
| MissingRequiredFiles (missing_files : list string)
      (* Missing required files: {..} *)
| AllRequiredFilesPresent                 (* All required files are present *)
| CheckingMetadata                        (* Checking package metadata... *)
| MissingMetadataFields (missing_fields : list string)
      (* Missing metadata fields: {..} *)
| MetadataComplete                        (* Package metadata is complete *)
| CheckingReadme                          (* Checking README... *)
| ReadmeNotFound                          (* README.md not found *)
| ReadmeMissingSections (missing_sections : list string)
      (* README missing sections: {..} *)
| ReadmeOk                                (* README contains essential information *)
| CheckingDependencies                    (* Checking dependencies... *)
| OpenAIInCoreDependencies
      (* OpenAI is in core dependencies - consider moving to optional dependencies *)
| DependenciesOk                          (* Dependencies look reasonable *)
| ErrorIn (check_name : string) (e : text)   (* Error in {..}: {..} *)
| SummaryHeader                           (* CHECKLIST SUMMARY between two rules *)
| SummaryLine (check_name : string) (passed : bool)
      (* {check_name}: PASSED  or  {check_name}: FAILED *)
| AllChecksPassed
      (* a rule, ALL CHECKS PASSED! Ready for publishing. and the six
         publishing steps *)
| SomeChecksFailed
      (* a rule, SOME CHECKS FAILED! Please fix issues before publishing. *)
| ImportSuccessful                        (* Import successful! *)
| PackageVersion (version : text)         (* Package version: {..} *)
| ReadyToUse                              (* Ready to use LLMRegressionTester! *)
| ImportFailed (e : text).                (* Import failed: {..} *)

(** ** Computations that print and may raise

    [Raise e] is an exception deriving from [Exception], the ones the
    handler of [main] catches; [e] is its message, [str(e)]. *)

Inductive outcome (A : Type) : Type :=
| Ret (a : A)
| Raise (e : text).

Arguments Ret {A} a.
Arguments Raise {A} e.

Definition M (A : Type) : Type := (list message * outcome A)%type.

Definition ret {A} (a : A) : M A := ([], Ret a).

Definition bind {A B} (m : M A) (f : A -> M B) : M B :=
  match m with
  | (out, Ret a) => let (out', r) := f a in (out ++ out', r)
  | (out, Raise e) => (out, Raise e)
  end.

Definition print (m : message) : M unit := ([m], Ret tt).

(** [with open(p, 'r') as f: content = f.read()], reached only after
    [Path(p).exists()] held; on a path that is absent all the same, [open]
    raises. *)
Definition read_text (fs : filesystem) (p : string) : M text :=
  match fs p with
  | File content => ([], Ret content)
  | Unreadable err => ([], Raise err)
  | Absent => ([], Raise (str "No such file or directory"))
  end.

Declare Scope checklist_scope.
Delimit Scope checklist_scope with checklist.
Notation "x <- m ;; k" := (bind m (fun x => k))
  (at level 61, m at next level, right associativity) : checklist_scope.
Notation "m ;; k" := (bind m (fun _ => k))
  (at level 61, right associativity) : checklist_scope.
Local Open Scope checklist_scope.

Definition output {A} (m : M A) : list message := fst m.
Definition result {A} (m : M A) : outcome A := snd m.

Fixpoint text_eqb (a b : text) : bool :=
  match a, b with
  | [], [] => true
  | x :: a', y :: b' => Ascii.eqb x y && text_eqb a' b'
  | _, _ => false
  end.

(** The loop [for x in items: if absent(x): missing.append(x)], started
    with the list [missing]. *)
Fixpoint append_each_if {A} (absent : A -> bool) (items missing : list A)
  : list A :=
  match items with
  | [] => missing
  | x :: rest =>
      append_each_if absent rest (if absent x then missing ++ [x] else missing)
  end.

(** The truth value of a list: it is not empty. *)
Definition truthy {A} (l : list A) : bool :=
  match l with
  | [] => false
  | _ :: _ => true
  end.

(** ** pre_publish_checklist.py *)

Definition pyproject_path : string := "pyproject.toml".
Definition version_path : string := "src/llm_regression_tester/_version.py".
Definition readme_path : string := "README.md".

Definition check_version_consistency (fs : filesystem) : M bool :=
  print CheckingVersion ;;
  if negb (path_exists fs pyproject_path) then
    (print PyprojectNotFound ;; ret false)
  else
    content <- read_text fs pyproject_path ;;
    match search pyproject_version_re content with
    | None => print VersionNotFoundInPyproject ;; ret false
    | Some pyproject_version =>
        if negb (path_exists fs version_path) then
          (print VersionPyNotFound ;; ret false)
        else
          content <- read_text fs version_path ;;
          match search version_py_re content with
          | None => print VersionNotFoundInVersionPy ;; ret false
          | Some version_py_version =>
              if negb (text_eqb pyproject_version version_py_version) then
                (print (VersionMismatch pyproject_version version_py_version) ;;
                 ret false)
              else
                (print (VersionConsistent pyproject_version) ;; ret true)
          end
    end.

Definition required_files : list string :=
  [ "README.md";
    "LICENSE";
    "pyproject.toml";
    "src/llm_regression_tester/__init__.py";
    "src/llm_regression_tester/llm_regression_tester.py";
    "src/llm_regression_tester/_version.py";
    "tests/test_basic.py" ]%string.

Definition missing_files (fs : filesystem) : list string :=
  append_each_if (fun file_path => negb (path_exists fs file_path))
                 required_files [].

Definition check_required_files (fs : filesystem) : M bool :=
  print CheckingRequiredFiles ;;
  let missing_files := missing_files fs in
  if truthy missing_files then
    (print (MissingRequiredFiles missing_files) ;; ret false)
  else
    (print AllRequiredFilesPresent ;; ret true).

Definition required_fields : list string :=
  [ "name"; "version"; "description"; "authors"; "license";
    "requires-python"; "dependencies" ]%string.

(** [f'{field} =' not in content and f'{field}=' not in content] *)
Definition field_absent (content : text) (field : string) : bool :=
  negb (contains (str (field ++ " =")) content) &&
  negb (contains (str (field ++ "=")) content).

Definition missing_fields (content : text) : list string :=
  append_each_if (field_absent content) required_fields [].

Definition check_package_metadata (fs : filesystem) : M bool :=
  print CheckingMetadata ;;
  if negb (path_exists fs pyproject_path) then
    (print PyprojectNotFound ;; ret false)
  else
    content <- read_text fs pyproject_path ;;
    let missing_fields := missing_fields content in
    if truthy missing_fields then
      (print (MissingMetadataFields missing_fields) ;; ret false)
    else
      (print MetadataComplete ;; ret true).

Definition required_sections : list string :=
  [ "installation"; "usage"; "example" ]%string.

(** [content] is the lowered text of the readme. *)
Definition missing_sections (content : text) : list string :=
  append_each_if (fun section => negb (contains (str section) content))
                 required_sections [].

Definition check_readme (fs : filesystem) : M bool :=
  print CheckingReadme ;;
  if negb (path_exists fs readme_path) then
    (print ReadmeNotFound ;; ret false)
  else
    raw <- read_text fs readme_path ;;
    let content := lower raw in
    let missing_sections := missing_sections content in
    if truthy missing_sections then
      (print (ReadmeMissingSections missing_sections) ;; ret false)
    else
      (print ReadmeOk ;; ret true).

Definition check_dependencies (fs : filesystem) : M bool :=
  print CheckingDependencies ;;
  if negb (path_exists fs pyproject_path) then
    (print PyprojectNotFound ;; ret false)
  else
    content <- read_text fs pyproject_path ;;
    match search dependencies_re content with
    | Some core_deps =>
        if contains (str "openai") (lower core_deps) then
          (print OpenAIInCoreDependencies ;; ret false)
        else
          (print DependenciesOk ;; ret true)
    | None => print DependenciesOk ;; ret true
    end.

Definition check := filesystem -> M bool.

Definition checks : list (string * check) :=
  [ ("Version Consistency"%string, check_version_consistency);
    ("Required Files"%string, check_required_files);
    ("Package Metadata"%string, check_package_metadata);
    ("README Content"%string, check_readme);
    ("Dependencies"%string, check_dependencies) ].

(** The state of the loop of [main]. *)
Record loop_state : Type := {
  all_passed : bool;
  results : list (string * bool);
  printed : list message
}.

(** [for check_name, check_func in checks: try: ... except Exception ...] *)
Fixpoint run_checks (checks : list (string * check)) (fs : filesystem)
  (st : loop_state) : loop_state :=
  match checks with
  | [] => st
  | (check_name, check_func) :: rest =>
      let (out, r) := check_func fs in
      run_checks rest fs
        match r with
        | Ret result =>
            {| all_passed := if negb result then false else all_passed st;
               results := results st ++ [(check_name, result)];
               printed := printed st ++ out |}
        | Raise e =>
            {| all_passed := false;
               results := results st ++ [(check_name, false)];
               printed := printed st ++ out ++ [ErrorIn check_name e] |}
        end
  end.

(** What one run of [main] leaves behind. *)
Record run : Type := {
  console : list message;
  summary : list (string * bool);
  exit_code : Z
}.

(** [main], over any list of checks. *)
Definition main_with (checks : list (string * check)) (fs : filesystem) : run :=
  let st := run_checks checks fs
              {| all_passed := true; results := []; printed := [Banner] |} in
  let table :=
    map (fun '(check_name, passed) => SummaryLine check_name passed) (results st) in
  if all_passed st then
    {| console := printed st ++ [SummaryHeader] ++ table ++ [AllChecksPassed];
       summary := results st;
       exit_code := 0 |}
  else
    {| console := printed st ++ [SummaryHeader] ++ table ++ [SomeChecksFailed];
       summary := results st;
       exit_code := 1 |}.

Definition main (fs : filesystem) : run := main_with checks fs.

(** ** test_import.py *)







(** *** The interpreter around the script

    What CPython does when the script has ended, on a 64-bit POSIX
    system. *)



      (* the code of a SystemExit that is neither None nor an integer *)




(** The search-path step before the import,
    [if src_path not in sys.path: sys.path.insert(0, src_path)], where
    [src_path] is the [src] directory beside the script; the result is the
    new [sys.path]. *)
Definition add_src_path (src_path : string) (sys_path : list string)
  : list string :=
  if existsb (String.eqb src_path) sys_path then sys_path
  else src_path :: sys_path.
(** * Vocabulary of the properties *)

(** A check passed: it returned [True]. *)
Definition passed (m : M bool) : bool :=
  match result m with
  | Ret true => true
  | _ => false
  end.

(** What running one check adds to the console: its own output, then the
    error line when it raised. *)
Definition emitted (check_name : string) (m : M bool) : list message :=
  output m ++
  match result m with
  | Ret _ => []
  | Raise e => [ErrorIn check_name e]
  end.

(** The five names of the table of [main], in its order. *)
Definition check_names : list string :=
  [ "Version Consistency"; "Required Files"; "Package Metadata";
    "README Content"; "Dependencies" ]%string.


(** [word] occurs in [s]. *)
Definition occurs (word s : text) : Prop :=
  exists pre post, s = pre ++ word ++ post.

(** The capital form of a lowercase letter a..z. *)
Definition upper_of (x : ascii) : ascii := ascii_of_nat (nat_of_ascii x - 32).

Definition is_lowercase_letter (x : ascii) : bool :=
  (97 <=? nat_of_ascii x) && (nat_of_ascii x <=? 122).

(** [w] spells [word] up to the case of its letters. *)
Definition same_ignoring_case (w word : text) : Prop :=
  Forall2 (fun c x => c = x \/ c = upper_of x) w word.

(** [word], written in lowercase letters, occurs in [s] in some mix of
    upper and lower case. *)
Definition occurs_ignoring_case (word s : text) : Prop :=
  exists pre w post, s = pre ++ w ++ post /\ same_ignoring_case w word.

(** A line feed, and the lines of a document joined by it. *)
Definition newline : ascii := Ascii false true false true false false false false.

Definition lines (l : list text) : text :=
  flat_map (fun line => line ++ [newline]) l.

(** [s] between double quotes. *)
Definition quoted (s : string) : text := dquote :: str s ++ [dquote].

(** A working directory that holds one readable file. *)
Definition single_file (path : string) (content : text) : filesystem :=
  fun p => if String.eqb p path then File content else Absent.

(** The token a pattern finds in a file: none when the file is missing. *)
Definition token (re : regex) (fs : filesystem) (path : string) : option text :=
  match fs path with
  | File content => search re content
  | _ => None
  end.

(** A working directory that holds the two files of the version check. *)
Definition version_files (pyproject version_py : text) : filesystem :=
  fun p =>
    if String.eqb p pyproject_path then File pyproject
    else if String.eqb p version_path then File version_py
    else Absent.

(** The accumulator after the characters of [w] were consumed. *)
Definition pushes (cap : bool) (w acc : text) : text :=
  fold_left (fun acc c => push cap c acc) w acc.

(** Every character of [w] is in the class [\s]. *)
Definition spaces (w : text) : Prop := forallb isspace w = true.

(** The end of the dependency pattern: the group closes on a closing
    bracket. *)
Definition closing : regex := [GroupEnd; Chr (Lit "]")].

(** A working directory given by the list of its readable files. *)
Fixpoint tree (files : list (string * text)) : filesystem :=
  match files with
  | [] => fun _ => Absent
  | (path, content) :: rest =>
      fun p => if String.eqb p path then File content else tree rest p
  end.

(** A release that is ready: the seven files, consistent versions, the
    seven metadata fields, the three readme sections, no openai. *)
Definition ready_pyproject : text :=
  lines [str "[project]";
         str "name = " ++ quoted "llm-regression-tester";
         str "version = " ++ quoted "0.1.0";
         str "description = " ++ quoted "demo";
         str "authors = []";
         str "license = {text = " ++ quoted "MIT" ++ str "}";
         str "requires-python = " ++ quoted ">=3.8";
         str "dependencies = [" ++ quoted "pyyaml" ++ str "]"].

Definition ready_tree : filesystem :=
  tree [("README.md"%string,
         lines [str "# Installation"; str "# Usage"; str "# Example"]);
        ("LICENSE"%string, str "MIT");
        ("pyproject.toml"%string, ready_pyproject);
        ("src/llm_regression_tester/__init__.py"%string, []);
        ("src/llm_regression_tester/llm_regression_tester.py"%string, []);
        ("src/llm_regression_tester/_version.py"%string,
         lines [str "__version__ = " ++ quoted "0.1.0"]);
        ("tests/test_basic.py"%string, [])].

(** The same release with a readme that cannot be read. *)
Definition unreadable_readme_tree : filesystem :=
  fun p =>
    if String.eqb p readme_path then Unreadable (str "Permission denied")
    else ready_tree p.

(** The part the two version patterns share, after the key. *)
Definition version_tail : regex :=
  [Rep true Space; Chr (Lit "="); Rep true Space; Chr (Lit dquote); GroupStart] ++
  plus (NotLit dquote) ++ [GroupEnd; Chr (Lit dquote)].

(** A working directory on which every check of the list succeeds. *)
Definition release_ready (fs : filesystem) : Prop :=
  exists pyproject version_py readme version,
    fs pyproject_path = File pyproject /\
    fs version_path = File version_py /\
    fs readme_path = File readme /\
    (forall p, In p required_files -> path_exists fs p = true) /\
    search pyproject_version_re pyproject = Some version /\
    search version_py_re version_py = Some version /\
    (forall field,
        In field required_fields ->
        occurs (str (field ++ " =")) pyproject \/
        occurs (str (field ++ "=")) pyproject) /\
    (forall section,
        In section required_sections ->
        occurs_ignoring_case (str section) readme) /\
    (forall core_deps,
        search dependencies_re pyproject = Some core_deps ->
        ~ occurs_ignoring_case (str "openai") core_deps).

(** The messages a check prints when a file it needs is absent. *)
Definition is_not_found (m : message) : bool :=
  match m with
  | PyprojectNotFound | VersionPyNotFound | ReadmeNotFound => true
  | _ => false
  end.

(** The two closing banners of [main]. *)
Definition is_final_banner (m : message) : bool :=
  match m with
  | AllChecksPassed | SomeChecksFailed => true
  | _ => false
  end.

(** The messages the five checks and the error handler of [main] print. *)
Definition printed_by_check (m : message) : bool :=
  match m with
  | Banner | SummaryHeader | SummaryLine _ _ | AllChecksPassed
  | SomeChecksFailed | ImportSuccessful | PackageVersion _ | ReadyToUse
  | ImportFailed _ => false
  | _ => true
  end.

(** A table line that reads FAILED. *)
Definition is_failed_line (m : message) : bool :=
  match m with
  | SummaryLine _ false => true
  | _ => false
  end.

(** The ready release with one more file beside the required ones. *)
Definition ready_tree_with_notes : filesystem :=
  fun p => if String.eqb p "notes.txt" then File (str "draft") else ready_tree p.

(** * Properties *)

(** Case analysis on the condition of an [if] of the goal. *)
Ltac case_if :=
  match goal with
  | |- context [if ?b then _ else _] => destruct b eqn:?
  end.

(** ** Lists built by the append loops *)

Lemma append_each_if_filter {A} (absent : A -> bool) (items missing : list A) :
  append_each_if absent items missing = missing ++ filter absent items.
Proof.
  revert missing.
  induction items as [|x rest IH]; intros missing; simpl.
  - now rewrite app_nil_r.
  - rewrite IH. destruct (absent x); simpl; [|reflexivity].
    now rewrite <- app_assoc.
Qed.

Lemma truthy_false_iff {A} (l : list A) : truthy l = false <-> l = [].
Proof. destruct l; simpl; split; congruence. Qed.

Lemma filter_nil_iff {A} (f : A -> bool) (l : list A) :
  filter f l = [] <-> forall x, In x l -> f x = false.
Proof.
  induction l as [|a l IH]; simpl.
  - split; [intros _ x []|reflexivity].
  - destruct (f a) eqn:Ha; split.
    + discriminate.
    + intros H. specialize (H a (or_introl eq_refl)). congruence.
    + intros H x [<-|Hx]; [assumption|]. now apply IH.
    + intros H. apply IH. intros x Hx. apply H. now right.
Qed.

(** ** The loop of [main] *)

Lemma passed_true_iff (m : M bool) : passed m = true <-> result m = Ret true.
Proof.
  unfold passed. destruct (result m) as [[|]|e]; split; congruence.
Qed.

Lemma run_checks_spec (cs : list (string * check)) (fs : filesystem)
  (st : loop_state) :
  let st' := run_checks cs fs st in
  all_passed st' = all_passed st && forallb (fun c => passed (snd c fs)) cs /\
  results st' = results st ++ map (fun c => (fst c, passed (snd c fs))) cs /\
  printed st' =
    printed st ++ flat_map (fun c => emitted (fst c) (snd c fs)) cs.
Proof.
  revert st.
  induction cs as [|[name f] rest IH]; intros st; simpl.
  - now rewrite andb_true_r, !app_nil_r.
  - unfold passed, emitted, result, output.
    destruct (f fs) as [out [b|e]]; simpl;
      match goal with
      | |- context [run_checks rest fs ?s] =>
          destruct (IH s) as (Ha & Hr & Hp); rewrite Ha, Hr, Hp; simpl
      end.
    + repeat split.
      * destruct b; simpl; [reflexivity|now rewrite andb_false_r].
      * rewrite <- app_assoc. simpl. now destruct b.
      * now rewrite app_nil_r, <- app_assoc.
    + repeat split.
      * now rewrite andb_false_r.
      * now rewrite <- app_assoc.
      * now rewrite <- !app_assoc.
Qed.

Lemma main_with_exit_code (cs : list (string * check)) (fs : filesystem) :
  exit_code (main_with cs fs) =
    if forallb (fun c => passed (snd c fs)) cs then 0%Z else 1%Z.
Proof.
  unfold main_with.
  destruct (run_checks_spec cs fs
              {| all_passed := true; results := []; printed := [Banner] |})
    as (Ha & _ & _).
  simpl in Ha. rewrite Ha.
  now case_if.
Qed.

Lemma main_with_summary (cs : list (string * check)) (fs : filesystem) :
  summary (main_with cs fs) = map (fun c => (fst c, passed (snd c fs))) cs.
Proof.
  unfold main_with.
  destruct (run_checks_spec cs fs
              {| all_passed := true; results := []; printed := [Banner] |})
    as (_ & Hr & _).
  simpl in Hr. now case_if.
Qed.

Lemma main_with_console (cs : list (string * check)) (fs : filesystem) :
  console (main_with cs fs) =
    [Banner] ++ flat_map (fun c => emitted (fst c) (snd c fs)) cs ++
    [SummaryHeader] ++
    map (fun c => SummaryLine (fst c) (passed (snd c fs))) cs ++
    [if forallb (fun c => passed (snd c fs)) cs
     then AllChecksPassed else SomeChecksFailed].
Proof.
  unfold main_with.
  destruct (run_checks_spec cs fs
              {| all_passed := true; results := []; printed := [Banner] |})
    as (Ha & Hr & Hp).
  simpl in Ha, Hr, Hp. rewrite Ha, Hr, Hp, map_map.
  case_if; simpl; rewrite <- ?app_assoc; reflexivity.
Qed.

(** C1.  Whatever the five checks do (return [True], return [False] or
    raise), [main] returns 0 exactly when all five returned [True], and 1
    as soon as one of them returned [False] or raised; this holds in
    particular for the five checks of the script. *)
Theorem main_exit_code_iff_all_passed :
  forall (c1 c2 c3 c4 c5 : check) (fs : filesystem),
    let cs := combine check_names [c1; c2; c3; c4; c5] in
    let r := main_with cs fs in
    (exit_code r = 0%Z <->
       forall c, In c [c1; c2; c3; c4; c5] -> result (c fs) = Ret true) /\
    (exit_code r = 1%Z <->
       exists c, In c [c1; c2; c3; c4; c5] /\
                 (result (c fs) = Ret false \/ exists e, result (c fs) = Raise e)) /\
    (exit_code r = 0%Z \/ exit_code r = 1%Z) /\
    main fs =
      main_with (combine check_names
                   [check_version_consistency; check_required_files;
                    check_package_metadata; check_readme; check_dependencies]) fs.
Proof.
  intros c1 c2 c3 c4 c5 fs cs r.
  assert (Hall : forallb (fun c => passed (snd c fs)) cs = true <->
                 forall c, In c [c1; c2; c3; c4; c5] -> result (c fs) = Ret true).
  { subst cs. simpl. rewrite !andb_true_iff, !passed_true_iff. split.
    - intros (H1 & H2 & H3 & H4 & H5 & _) c [<-|[<-|[<-|[<-|[<-|[]]]]]];
        assumption.
    - intros H. repeat split; apply H; simpl; tauto. }
  assert (Hex : forallb (fun c => passed (snd c fs)) cs = false <->
                exists c, In c [c1; c2; c3; c4; c5] /\
                  (result (c fs) = Ret false \/ exists e, result (c fs) = Raise e)).
  { split.
    - intros Hf. subst cs. simpl in Hf.
      repeat (apply andb_false_iff in Hf; destruct Hf as [Hf|Hf]);
        try discriminate;
        match type of Hf with
        | passed (?c fs) = false =>
            exists c; split; [simpl; tauto|];
            unfold passed in Hf; destruct (result (c fs)) as [[|]|e];
            [discriminate|now left|right; now exists e]
        end.
    - intros (c & Hin & Hc).
      apply not_true_is_false. intros Hf.
      pose proof (proj1 Hall Hf c Hin) as Hret.
      destruct Hc as [Hc|[e Hc]]; congruence. }
  unfold r. rewrite main_with_exit_code.
  destruct (forallb (fun c => passed (snd c fs)) cs).
  - split; [split; [intros _; exact (proj1 Hall eq_refl)|reflexivity]|].
    split; [split; [discriminate|]|split; [now left|reflexivity]].
    intros Hc. pose proof (proj2 Hex Hc). discriminate.
  - split; [split; [discriminate|]|].
    { intros Hc. pose proof (proj2 Hall Hc). discriminate. }
    split; [split; [intros _; exact (proj1 Hex eq_refl)|reflexivity]|].
    split; [now right|reflexivity].
Qed.

(** C2.  Whatever the five checks do, [main] runs all of them in the fixed
    order: the console carries what each check printed, in that order, an
    error line after the output of a check that raised, and the table has
    one line per check; a check that raised is recorded as failed and the
    checks after it still run and appear in the table. *)
Theorem main_runs_every_check_in_order :
  forall (c1 c2 c3 c4 c5 : check) (fs : filesystem),
    let cs := combine check_names [c1; c2; c3; c4; c5] in
    let r := main_with cs fs in
    console r =
      [Banner] ++
      emitted "Version Consistency" (c1 fs) ++
      emitted "Required Files" (c2 fs) ++
      emitted "Package Metadata" (c3 fs) ++
      emitted "README Content" (c4 fs) ++
      emitted "Dependencies" (c5 fs) ++
      [SummaryHeader;
       SummaryLine "Version Consistency" (passed (c1 fs));
       SummaryLine "Required Files" (passed (c2 fs));
       SummaryLine "Package Metadata" (passed (c3 fs));
       SummaryLine "README Content" (passed (c4 fs));
       SummaryLine "Dependencies" (passed (c5 fs));
       if passed (c1 fs) && passed (c2 fs) && passed (c3 fs) &&
          passed (c4 fs) && passed (c5 fs)
       then AllChecksPassed else SomeChecksFailed] /\
    summary r =
      [("Version Consistency"%string, passed (c1 fs));
       ("Required Files"%string, passed (c2 fs));
       ("Package Metadata"%string, passed (c3 fs));
       ("README Content"%string, passed (c4 fs));
       ("Dependencies"%string, passed (c5 fs))] /\
    (forall name c e,
        In (name, c) cs -> result (c fs) = Raise e ->
        In (name, false) (summary r) /\
        In (SummaryLine name false) (console r) /\
        exists before after,
          console r = before ++ output (c fs) ++ [ErrorIn name e] ++ after) /\
    main fs =
      main_with (combine check_names
                   [check_version_consistency; check_required_files;
                    check_package_metadata; check_readme; check_dependencies]) fs.
Proof.
  intros c1 c2 c3 c4 c5 fs cs r.
  assert (Hcon : console r = [Banner] ++
      emitted "Version Consistency" (c1 fs) ++
      emitted "Required Files" (c2 fs) ++
      emitted "Package Metadata" (c3 fs) ++
      emitted "README Content" (c4 fs) ++
      emitted "Dependencies" (c5 fs) ++
      [SummaryHeader;
       SummaryLine "Version Consistency" (passed (c1 fs));
       SummaryLine "Required Files" (passed (c2 fs));
       SummaryLine "Package Metadata" (passed (c3 fs));
       SummaryLine "README Content" (passed (c4 fs));
       SummaryLine "Dependencies" (passed (c5 fs));
       if passed (c1 fs) && passed (c2 fs) && passed (c3 fs) &&
          passed (c4 fs) && passed (c5 fs)
       then AllChecksPassed else SomeChecksFailed]).
  { unfold r. rewrite main_with_console. subst cs. simpl.
    rewrite !app_nil_r, andb_true_r, <- !app_assoc, !andb_assoc.
    reflexivity. }
  assert (Hsum : summary r =
      [("Version Consistency"%string, passed (c1 fs));
       ("Required Files"%string, passed (c2 fs));
       ("Package Metadata"%string, passed (c3 fs));
       ("README Content"%string, passed (c4 fs));
       ("Dependencies"%string, passed (c5 fs))]).
  { unfold r. now rewrite main_with_summary. }
  split; [exact Hcon|]. split; [exact Hsum|]. split; [|reflexivity].
  intros name c e Hin Hraise.
  assert (Hp : passed (c fs) = false) by (unfold passed; now rewrite Hraise).
  assert (Hem : emitted name (c fs) = output (c fs) ++ [ErrorIn name e])
    by (unfold emitted; now rewrite Hraise).
  rewrite Hcon, Hsum. clear Hcon Hsum.
  subst cs. simpl in Hin.
  destruct Hin as [Hin|[Hin|[Hin|[Hin|[Hin|[]]]]]];
    injection Hin as <- <-; rewrite Hp, Hem;
    (split; [simpl; tauto|]);
    (split; [rewrite !in_app_iff; simpl; tauto|]).
  - exists [Banner]. eexists. rewrite <- !app_assoc. reflexivity.
  - exists ([Banner] ++ emitted "Version Consistency" (c1 fs)). eexists.
    rewrite <- !app_assoc. reflexivity.
  - exists ([Banner] ++ emitted "Version Consistency" (c1 fs) ++
            emitted "Required Files" (c2 fs)). eexists.
    rewrite <- !app_assoc. reflexivity.
  - exists ([Banner] ++ emitted "Version Consistency" (c1 fs) ++
            emitted "Required Files" (c2 fs) ++
            emitted "Package Metadata" (c3 fs)). eexists.
    rewrite <- !app_assoc. reflexivity.
  - exists ([Banner] ++ emitted "Version Consistency" (c1 fs) ++
            emitted "Required Files" (c2 fs) ++
            emitted "Package Metadata" (c3 fs) ++
            emitted "README Content" (c4 fs)). eexists.
    rewrite <- !app_assoc. reflexivity.
Qed.

(** ** Required files *)

Lemma missing_files_filter (fs : filesystem) :
  missing_files fs =
    filter (fun file_path => negb (path_exists fs file_path)) required_files.
Proof. unfold missing_files. now rewrite append_each_if_filter. Qed.

Lemma In_missing_files (fs : filesystem) (p : string) :
  In p (missing_files fs) <->
  In p required_files /\ path_exists fs p = false.
Proof.
  rewrite missing_files_filter, filter_In, negb_true_iff. tauto.
Qed.

(** C6.  The list of required files has seven paths.  When all of them
    exist, the check prints that all are present and returns [True].  When
    at least one is missing, it returns [False] and the list it prints
    holds exactly the missing required paths, each once, in the order of
    the fixed list. *)
Theorem check_required_files_lists_exactly_the_missing :
  forall fs : filesystem,
    List.length required_files = 7 /\
    ((forall p, In p required_files -> path_exists fs p = true) ->
     check_required_files fs =
       ([CheckingRequiredFiles; AllRequiredFilesPresent], Ret true)) /\
    ((exists p, In p required_files /\ path_exists fs p = false) ->
     exists missing,
       check_required_files fs =
         ([CheckingRequiredFiles; MissingRequiredFiles missing], Ret false) /\
       (forall p, In p missing <->
                  In p required_files /\ path_exists fs p = false) /\
       NoDup missing /\
       missing =
         filter (fun p => negb (path_exists fs p)) required_files).
Proof.
  intros fs. split; [reflexivity|]. split.
  - intros Hall. unfold check_required_files.
    assert (Hm : missing_files fs = []).
    { rewrite missing_files_filter. apply filter_nil_iff.
      intros p Hp. now rewrite (Hall p Hp). }
    now rewrite Hm.
  - intros (p & Hin & Hp). exists (missing_files fs).
    assert (Hne : truthy (missing_files fs) = true).
    { destruct (truthy (missing_files fs)) eqn:Ht; [reflexivity|].
      apply truthy_false_iff in Ht.
      assert (Hp' : In p (missing_files fs)) by now apply In_missing_files.
      rewrite Ht in Hp'. destruct Hp'. }
    unfold check_required_files. rewrite Hne. simpl.
    split; [reflexivity|]. split; [apply In_missing_files|].
    split; [|apply missing_files_filter].
    rewrite missing_files_filter. apply NoDup_filter.
    unfold required_files.
    repeat (constructor; [simpl; intuition discriminate|]). constructor.
Qed.

(** ** Import verifier *)



(** ** Substrings and letter case *)

Lemma starts_with_iff (p s : text) :
  starts_with p s = true <-> exists rest, s = p ++ rest.
Proof.
  revert s. induction p as [|a p IH]; intros s; simpl.
  - split; [intros _; now exists s|reflexivity].
  - destruct s as [|b s].
    + split; [discriminate|intros [rest H]; discriminate].
    + rewrite andb_true_iff, Ascii.eqb_eq, IH. split.
      * intros [-> [rest ->]]. now exists rest.
      * intros [rest H]. injection H as -> ->. split; [reflexivity|now exists rest].
Qed.

Lemma contains_iff (p s : text) : contains p s = true <-> occurs p s.
Proof.
  unfold occurs. induction s as [|b s IH]; simpl.
  - rewrite orb_false_r, starts_with_iff. split.
    + intros [rest H]. now exists [], rest.
    + intros (pre & post & H). destruct pre; simpl in H.
      * now exists post.
      * discriminate.
  - rewrite orb_true_iff, starts_with_iff, IH. split.
    + intros [[rest H]|(pre & post & H)].
      * exists [], rest. exact H.
      * exists (b :: pre), post. simpl. now rewrite H.
    + intros (pre & post & H). destruct pre as [|b' pre]; simpl in H.
      * left. now exists post.
      * right. injection H as _ H. now exists pre, post.
Qed.

Lemma contains_false_iff (p s : text) : contains p s = false <-> ~ occurs p s.
Proof.
  rewrite <- contains_iff. destruct (contains p s); split; congruence.
Qed.

Lemma lower_char_lowercase_letter (c x : ascii) :
  is_lowercase_letter x = true ->
  (lower_char c = x <-> c = x \/ c = upper_of x).
Proof.
  unfold is_lowercase_letter, upper_of, lower_char.
  rewrite andb_true_iff, !Nat.leb_le. intros [Hlo Hhi].
  pose proof (nat_ascii_bounded c) as Hc.
  split.
  - case_if.
    + intros H. right.
      assert (Hn : nat_of_ascii c + 32 = nat_of_ascii x).
      { rewrite <- H, nat_ascii_embedding; [reflexivity|].
        rewrite orb_true_iff, !andb_true_iff, !Nat.leb_le in Heqb. lia. }
      rewrite <- Hn.
      replace (nat_of_ascii c + 32 - 32) with (nat_of_ascii c) by lia.
      now rewrite ascii_nat_embedding.
    + now left.
  - intros [->| ->].
    + case_if; [|reflexivity].
      rewrite orb_true_iff, !andb_true_iff, !Nat.leb_le in Heqb. lia.
    + rewrite nat_ascii_embedding by lia.
      replace (nat_of_ascii x - 32 + 32) with (nat_of_ascii x) by lia.
      case_if; [apply ascii_nat_embedding|].
      rewrite orb_false_iff, !andb_false_iff, !Nat.leb_gt in Heqb. lia.
Qed.

Lemma lower_eq_iff (w word : text) :
  forallb is_lowercase_letter word = true ->
  (lower w = word <-> same_ignoring_case w word).
Proof.
  unfold same_ignoring_case, lower.
  revert w. induction word as [|x word IH]; intros w Hlow.
  - destruct w; simpl; split; intros H; try constructor;
      try discriminate; inversion H.
  - simpl in Hlow. apply andb_true_iff in Hlow as [Hx Hlow].
    destruct w as [|c w]; simpl.
    + split; intros H; [discriminate|inversion H].
    + split.
      * intros H. injection H as Hc Hw. constructor.
        -- now apply lower_char_lowercase_letter.
        -- now apply IH.
      * intros H. inversion H; subst. f_equal.
        -- now apply lower_char_lowercase_letter.
        -- now apply IH.
Qed.

(** Searching the lowered text for a lowercase word is searching the text
    for the word in any letter case. *)
Lemma contains_lower_iff (word s : text) :
  forallb is_lowercase_letter word = true ->
  (contains word (lower s) = true <-> occurs_ignoring_case word s).
Proof.
  intros Hlow. rewrite contains_iff. unfold occurs, occurs_ignoring_case.
  split.
  - intros (pre & post & H). unfold lower in H.
    apply map_eq_app in H as (pre' & rest & -> & Hpre & H).
    apply map_eq_app in H as (w & post' & -> & Hw & Hpost).
    exists pre', w, post'. split; [reflexivity|].
    now apply lower_eq_iff.
  - intros (pre & w & post & -> & Hw).
    exists (lower pre), (lower post). unfold lower. rewrite !map_app.
    apply lower_eq_iff in Hw; [|assumption]. unfold lower in Hw.
    now rewrite Hw.
Qed.

Lemma contains_lower_false_iff (word s : text) :
  forallb is_lowercase_letter word = true ->
  (contains word (lower s) = false <-> ~ occurs_ignoring_case word s).
Proof.
  intros Hlow. rewrite <- (contains_lower_iff word s Hlow).
  destruct (contains word (lower s)); split; congruence.
Qed.

(** ** The checks on a readable file *)

(** Run the monadic steps of a check. *)
Ltac run_check := cbv beta iota zeta delta [bind print ret negb app].

Lemma check_readme_on_text (fs : filesystem) (readme : text) :
  fs readme_path = File readme ->
  check_readme fs =
    if truthy (missing_sections (lower readme))
    then ([CheckingReadme;
           ReadmeMissingSections (missing_sections (lower readme))], Ret false)
    else ([CheckingReadme; ReadmeOk], Ret true).
Proof.
  intros H. unfold check_readme, path_exists, read_text. rewrite H.
  run_check.
  destruct (truthy (missing_sections (lower readme))); reflexivity.
Qed.

Lemma missing_sections_filter (content : text) :
  missing_sections content =
    filter (fun section => negb (contains (str section) content))
           required_sections.
Proof. unfold missing_sections. now rewrite append_each_if_filter. Qed.

Lemma required_sections_lowercase (section : string) :
  In section required_sections ->
  forallb is_lowercase_letter (str section) = true.
Proof.
  intros [<-|[<-|[<-|[]]]]; reflexivity.
Qed.

(** C8.  A section of the fixed list is reported missing exactly when its
    keyword occurs in no letter case anywhere in the readme; the check
    returns [True] exactly when the three keywords occur; and on a readme
    in which installation and usage occur but example does not, the check
    returns [False] and the list it prints is the one section example. *)
Theorem check_readme_ignores_case_and_names_missing :
  forall (fs : filesystem) (readme : text),
    fs readme_path = File readme ->
    (forall section,
        In section required_sections ->
        (In section (missing_sections (lower readme)) <->
         ~ occurs_ignoring_case (str section) readme)) /\
    (result (check_readme fs) = Ret true <->
     forall section,
       In section required_sections ->
       occurs_ignoring_case (str section) readme) /\
    (occurs_ignoring_case (str "installation") readme ->
     occurs_ignoring_case (str "usage") readme ->
     ~ occurs_ignoring_case (str "example") readme ->
     check_readme fs =
       ([CheckingReadme; ReadmeMissingSections ["example"%string]], Ret false)).
Proof.
  intros fs readme Hfs.
  assert (Hin : forall section,
             In section required_sections ->
             (In section (missing_sections (lower readme)) <->
              ~ occurs_ignoring_case (str section) readme)).
  { intros section Hsec.
    rewrite missing_sections_filter, filter_In, negb_true_iff,
      contains_lower_false_iff by now apply required_sections_lowercase.
    tauto. }
  split; [exact Hin|]. split.
  - rewrite (check_readme_on_text fs readme Hfs). split.
    + intros Hres section Hsec.
      destruct (truthy (missing_sections (lower readme))) eqn:Ht;
        [discriminate|].
      apply truthy_false_iff in Ht.
      destruct (contains (str section) (lower readme)) eqn:Hc.
      * apply contains_lower_iff in Hc; [assumption|].
        now apply required_sections_lowercase.
      * exfalso.
        assert (Hm : In section (missing_sections (lower readme))).
        { rewrite missing_sections_filter, filter_In, Hc. now split. }
        rewrite Ht in Hm. destruct Hm.
    + intros Hall.
      assert (Hm : missing_sections (lower readme) = []).
      { rewrite missing_sections_filter. apply filter_nil_iff.
        intros section Hsec. apply negb_false_iff.
        apply contains_lower_iff; [now apply required_sections_lowercase|].
        now apply Hall. }
      now rewrite Hm.
  - intros Hi Hu He.
    apply contains_lower_iff in Hi; [|reflexivity].
    apply contains_lower_iff in Hu; [|reflexivity].
    apply contains_lower_false_iff in He; [|reflexivity].
    rewrite (check_readme_on_text fs readme Hfs), missing_sections_filter.
    unfold required_sections. cbn [filter]. now rewrite Hi, Hu, He.
Qed.

Lemma check_readme_ignores_case_and_names_missing_witness :
  let readme := lines [str "# Demo"; str "## INSTALLATION"; str "## Usage"] in
  let fs := single_file readme_path readme in
  check_readme fs =
    ([CheckingReadme; ReadmeMissingSections ["example"%string]], Ret false).
Proof.
  intros readme fs.
  apply (check_readme_ignores_case_and_names_missing fs readme eq_refl).
  - apply contains_lower_iff; reflexivity.
  - apply contains_lower_iff; reflexivity.
  - apply contains_lower_false_iff; reflexivity.
Defined.

Lemma check_dependencies_on_doc (fs : filesystem) (doc : text) :
  fs pyproject_path = File doc ->
  check_dependencies fs =
    match search dependencies_re doc with
    | Some core_deps =>
        if contains (str "openai") (lower core_deps)
        then ([CheckingDependencies; OpenAIInCoreDependencies], Ret false)
        else ([CheckingDependencies; DependenciesOk], Ret true)
    | None => ([CheckingDependencies; DependenciesOk], Ret true)
    end.
Proof.
  intros H. unfold check_dependencies, path_exists, read_text. rewrite H.
  run_check.
  destruct (search dependencies_re doc) as [core_deps|]; [|reflexivity].
  destruct (contains (str "openai") (lower core_deps)); reflexivity.
Qed.

(** C5.  On a metadata document: when the pattern matches and openai
    occurs, in any letter case, in the captured contents of the array, the
    check prints the warning and returns [False]; when the pattern matches
    and openai does not occur there, the check returns [True]; when the
    pattern does not match, the check returns [True]. *)
Theorem check_dependencies_rejects_openai :
  forall (fs : filesystem) (doc : text),
    fs pyproject_path = File doc ->
    (forall core_deps,
        search dependencies_re doc = Some core_deps ->
        occurs_ignoring_case (str "openai") core_deps ->
        check_dependencies fs =
          ([CheckingDependencies; OpenAIInCoreDependencies], Ret false)) /\
    (forall core_deps,
        search dependencies_re doc = Some core_deps ->
        ~ occurs_ignoring_case (str "openai") core_deps ->
        check_dependencies fs =
          ([CheckingDependencies; DependenciesOk], Ret true)) /\
    (search dependencies_re doc = None ->
     check_dependencies fs =
       ([CheckingDependencies; DependenciesOk], Ret true)).
Proof.
  intros fs doc Hfs. rewrite (check_dependencies_on_doc fs doc Hfs).
  repeat split.
  - intros core_deps -> Hocc.
    apply contains_lower_iff in Hocc; [|reflexivity]. now rewrite Hocc.
  - intros core_deps -> Hocc.
    apply contains_lower_false_iff in Hocc; [|reflexivity]. now rewrite Hocc.
  - now intros ->.
Qed.

Lemma check_dependencies_rejects_openai_witness :
  let doc := lines [str "[project]";
                    str "dependencies = [" ++ quoted "OpenAI>=1.0" ++ str "]"] in
  let fs := single_file pyproject_path doc in
  fs pyproject_path = File doc /\
  search dependencies_re doc = Some (quoted "OpenAI>=1.0") /\
  check_dependencies fs =
    ([CheckingDependencies; OpenAIInCoreDependencies], Ret false).
Proof.
  intros doc fs.
  split; [reflexivity|]. split; [reflexivity|].
  apply (check_dependencies_rejects_openai fs doc eq_refl)
    with (core_deps := quoted "OpenAI>=1.0").
  - reflexivity.
  - apply contains_lower_iff; reflexivity.
Defined.

(** ** Package metadata *)

Lemma check_package_metadata_on_doc (fs : filesystem) (doc : text) :
  fs pyproject_path = File doc ->
  check_package_metadata fs =
    if truthy (missing_fields doc)
    then ([CheckingMetadata; MissingMetadataFields (missing_fields doc)],
          Ret false)
    else ([CheckingMetadata; MetadataComplete], Ret true).
Proof.
  intros H. unfold check_package_metadata, path_exists, read_text. rewrite H.
  run_check.
  destruct (truthy (missing_fields doc)); reflexivity.
Qed.

Lemma missing_fields_filter (doc : text) :
  missing_fields doc = filter (field_absent doc) required_fields.
Proof. unfold missing_fields. now rewrite append_each_if_filter. Qed.

Lemma field_absent_iff (doc : text) (field : string) :
  field_absent doc field = true <->
  ~ occurs (str (field ++ " =")) doc /\ ~ occurs (str (field ++ "=")) doc.
Proof.
  unfold field_absent.
  now rewrite andb_true_iff, !negb_true_iff, !contains_false_iff.
Qed.

Lemma field_absent_false_iff (doc : text) (field : string) :
  field_absent doc field = false <->
  occurs (str (field ++ " =")) doc \/ occurs (str (field ++ "=")) doc.
Proof.
  unfold field_absent.
  now rewrite andb_false_iff, !negb_false_iff, !contains_iff.
Qed.

Lemma filter_only {A} (f : A -> bool) (l : list A) (x : A) :
  NoDup l -> In x l ->
  (forall y, In y l -> (f y = true <-> y = x)) ->
  filter f l = [x].
Proof.
  induction l as [|a l IH]; intros Hnd Hin Hf; [destruct Hin|].
  inversion Hnd as [|? ? Hnotin Hnd']; subst. simpl.
  assert (Hnone : forall l', (forall y, In y l' -> f y = false) ->
                             filter f l' = []).
  { intros l' H. now apply filter_nil_iff. }
  destruct Hin as [->|Hin].
  - rewrite (proj2 (Hf x (or_introl eq_refl)) eq_refl). f_equal.
    apply Hnone. intros y Hy.
    destruct (f y) eqn:Hfy; [|reflexivity].
    apply (Hf y (or_intror Hy)) in Hfy. subst. contradiction.
  - destruct (f a) eqn:Hfa.
    + apply (Hf a (or_introl eq_refl)) in Hfa. subst. contradiction.
    + apply IH; [assumption|assumption|].
      intros y Hy. apply Hf. now right.
Qed.

Lemma required_fields_NoDup : NoDup required_fields.
Proof.
  unfold required_fields.
  repeat (constructor; [simpl; intuition discriminate|]). constructor.
Qed.

(** C7, as the script behaves.  On a metadata document the check returns
    [True] exactly when each of the seven field names occurs followed by
    a space and an equals sign, or followed directly by an equals sign; no
    space is asked for after the equals sign.  When exactly one field is
    missing in that sense, the check returns [False] and the list it
    prints is that one field. *)
Theorem check_package_metadata_iff_fields_occur :
  forall (fs : filesystem) (doc : text),
    fs pyproject_path = File doc ->
    List.length required_fields = 7 /\
    (result (check_package_metadata fs) = Ret true <->
     forall field,
       In field required_fields ->
       occurs (str (field ++ " =")) doc \/ occurs (str (field ++ "=")) doc) /\
    (forall field,
        In field required_fields ->
        (forall f, In f required_fields ->
                   (~ occurs (str (f ++ " =")) doc /\
                    ~ occurs (str (f ++ "=")) doc <-> f = field)) ->
        check_package_metadata fs =
          ([CheckingMetadata; MissingMetadataFields [field]], Ret false)).
Proof.
  intros fs doc Hfs. rewrite (check_package_metadata_on_doc fs doc Hfs).
  split; [reflexivity|]. split.
  - split.
    + intros Hres field Hin.
      destruct (truthy (missing_fields doc)) eqn:Ht; [discriminate|].
      apply truthy_false_iff in Ht. rewrite missing_fields_filter in Ht.
      apply field_absent_false_iff.
      exact (proj1 (filter_nil_iff _ _) Ht field Hin).
    + intros Hall.
      assert (Hm : missing_fields doc = []).
      { rewrite missing_fields_filter. apply filter_nil_iff.
        intros field Hin. apply field_absent_false_iff. now apply Hall. }
      now rewrite Hm.
  - intros field Hin Honly.
    assert (Hm : missing_fields doc = [field]).
    { rewrite missing_fields_filter.
      apply filter_only; [apply required_fields_NoDup|assumption|].
      intros y Hy. rewrite field_absent_iff. now apply Honly. }
    now rewrite Hm.
Qed.

Lemma check_package_metadata_iff_fields_occur_witness :
  let doc := lines [str "[project]";
                    str "name = " ++ quoted "pkg";
                    str "version = " ++ quoted "0.1.0";
                    str "description = " ++ quoted "demo";
                    str "authors = []";
                    str "requires-python = " ++ quoted ">=3.8";
                    str "dependencies = []"] in
  let fs := single_file pyproject_path doc in
  fs pyproject_path = File doc /\
  check_package_metadata fs =
    ([CheckingMetadata; MissingMetadataFields ["license"%string]], Ret false).
Proof.
  intros doc fs. split; [reflexivity|].
  apply (check_package_metadata_iff_fields_occur fs doc eq_refl).
  - simpl. tauto.
  - intros f Hf. rewrite <- field_absent_iff.
    destruct Hf as [<-|[<-|[<-|[<-|[<-|[<-|[<-|[]]]]]]]];
      vm_compute; split; congruence.
Defined.

(** C7 as stated fails: a document that writes one field as
    [license ={...}] passes the check, although that field occurs neither
    followed by space, equals sign, space, nor followed directly by an
    equals sign. *)
Lemma check_package_metadata_accepts_no_space_after_equals :
  let doc := lines [str "[project]";
                    str "name = " ++ quoted "pkg";
                    str "version = " ++ quoted "0.1.0";
                    str "description = " ++ quoted "demo";
                    str "authors = []";
                    str "license ={text = " ++ quoted "MIT" ++ str "}";
                    str "requires-python = " ++ quoted ">=3.8";
                    str "dependencies = []"] in
  let fs := single_file pyproject_path doc in
  result (check_package_metadata fs) = Ret true /\
  ~ (result (check_package_metadata fs) = Ret true <->
     forall field,
       In field required_fields ->
       occurs (str (field ++ " = ")) doc \/ occurs (str (field ++ "=")) doc).
Proof.
  intros doc fs. split; [reflexivity|].
  intros [Himp _].
  assert (Hin : In "license"%string required_fields) by (simpl; tauto).
  destruct (Himp eq_refl "license"%string Hin) as [H|H];
    apply contains_iff in H; vm_compute in H; discriminate.
Qed.

(** C9.  On a metadata document in which a required field name occurs
    anywhere followed by a space and an equals sign, or followed directly
    by an equals sign, that field is not in the list of missing fields and
    is in no list the check prints, whatever else the document holds. *)
Theorem check_package_metadata_counts_any_occurrence :
  forall (fs : filesystem) (doc : text) (field : string),
    fs pyproject_path = File doc ->
    In field required_fields ->
    occurs (str (field ++ " =")) doc \/ occurs (str (field ++ "=")) doc ->
    ~ In field (missing_fields doc) /\
    forall l,
      In (MissingMetadataFields l) (output (check_package_metadata fs)) ->
      ~ In field l.
Proof.
  intros fs doc field Hfs Hin Hocc.
  assert (Hnot : ~ In field (missing_fields doc)).
  { rewrite missing_fields_filter, filter_In.
    apply field_absent_false_iff in Hocc. rewrite Hocc.
    intros [_ H]. discriminate. }
  split; [exact Hnot|].
  intros l. rewrite (check_package_metadata_on_doc fs doc Hfs).
  destruct (truthy (missing_fields doc)); simpl.
  - intros [H|[H|[]]]; [discriminate|]. injection H as <-. exact Hnot.
  - intros [H|[H|[]]]; discriminate.
Qed.

(** Three documents that define no field [name]: the text occurs in a
    comment, in a string value, and as the end of a longer key. *)
Lemma check_package_metadata_counts_any_occurrence_witness :
  let in_comment := lines [str "# name = to be chosen"] in
  let in_value := lines [str "description = " ++ quoted "set name=value"] in
  let in_longer_key := lines [str "filename = " ++ quoted "a.txt"] in
  ~ In "name"%string (missing_fields in_comment) /\
  ~ In "name"%string (missing_fields in_value) /\
  ~ In "name"%string (missing_fields in_longer_key).
Proof.
  intros in_comment in_value in_longer_key.
  split; [|split].
  - refine (proj1 (check_package_metadata_counts_any_occurrence
                     (single_file pyproject_path in_comment) in_comment "name"
                     eq_refl _ _)).
    + simpl. tauto.
    + left. apply contains_iff. reflexivity.
  - refine (proj1 (check_package_metadata_counts_any_occurrence
                     (single_file pyproject_path in_value) in_value "name"
                     eq_refl _ _)).
    + simpl. tauto.
    + right. apply contains_iff. reflexivity.
  - refine (proj1 (check_package_metadata_counts_any_occurrence
                     (single_file pyproject_path in_longer_key) in_longer_key "name"
                     eq_refl _ _)).
    + simpl. tauto.
    + left. apply contains_iff. reflexivity.
Defined.

(** ** Version consistency *)

Lemma text_eqb_eq (a b : text) : text_eqb a b = true <-> a = b.
Proof.
  revert b. induction a as [|x a IH]; intros [|y b]; simpl;
    try (split; congruence).
  rewrite andb_true_iff, Ascii.eqb_eq, IH. split.
  - now intros [-> ->].
  - intros H. now injection H.
Qed.

Lemma check_version_consistency_cases (fs : filesystem) :
  check_version_consistency fs =
    match fs pyproject_path with
    | Absent => ([CheckingVersion; PyprojectNotFound], Ret false)
    | Unreadable err => ([CheckingVersion], Raise err)
    | File content =>
        match search pyproject_version_re content with
        | None => ([CheckingVersion; VersionNotFoundInPyproject], Ret false)
        | Some a =>
            match fs version_path with
            | Absent => ([CheckingVersion; VersionPyNotFound], Ret false)
            | Unreadable err => ([CheckingVersion], Raise err)
            | File content' =>
                match search version_py_re content' with
                | None =>
                    ([CheckingVersion; VersionNotFoundInVersionPy], Ret false)
                | Some b =>
                    if text_eqb a b
                    then ([CheckingVersion; VersionConsistent a], Ret true)
                    else ([CheckingVersion; VersionMismatch a b], Ret false)
                end
            end
        end
    end.
Proof.
  unfold check_version_consistency, path_exists, read_text.
  destruct (fs pyproject_path) as [|err|content]; run_check;
    [reflexivity|reflexivity|].
  destruct (search pyproject_version_re content) as [a|]; [|reflexivity].
  destruct (fs version_path) as [|err|content'];
    [reflexivity|reflexivity|].
  destruct (search version_py_re content') as [b|]; [|reflexivity].
  destruct (text_eqb a b); reflexivity.
Qed.

(** C4.  Each of the two paths being absent or a readable file: the check
    returns [False] when one of the files is missing or the pattern finds
    no token in one of them; it returns [False] and prints both tokens
    when they differ; it returns [True] and prints the token when the two
    tokens are the same text. *)
Theorem check_version_consistency_compares_tokens :
  forall fs : filesystem,
    (forall err, fs pyproject_path <> Unreadable err) ->
    (forall err, fs version_path <> Unreadable err) ->
    let pyproject_token := token pyproject_version_re fs pyproject_path in
    let version_py_token := token version_py_re fs version_path in
    (fs pyproject_path = Absent \/ fs version_path = Absent \/
     pyproject_token = None \/ version_py_token = None ->
     result (check_version_consistency fs) = Ret false) /\
    (forall a b,
        pyproject_token = Some a -> version_py_token = Some b -> a <> b ->
        check_version_consistency fs =
          ([CheckingVersion; VersionMismatch a b], Ret false)) /\
    (forall a,
        pyproject_token = Some a -> version_py_token = Some a ->
        check_version_consistency fs =
          ([CheckingVersion; VersionConsistent a], Ret true)).
Proof.
  intros fs Hp Hv pyproject_token version_py_token.
  subst pyproject_token version_py_token. unfold token.
  rewrite check_version_consistency_cases.
  destruct (fs pyproject_path) as [|err|content] eqn:Hpy;
    [|now destruct (Hp err)|].
  { repeat split; intros; try discriminate; reflexivity. }
  destruct (fs version_path) as [|err|content'] eqn:Hvp;
    [|now destruct (Hv err)|].
  { destruct (search pyproject_version_re content);
      repeat split; intros; try discriminate; reflexivity. }
  destruct (search pyproject_version_re content) as [a|];
    [|repeat split; intros; try discriminate; reflexivity].
  destruct (search version_py_re content') as [b|];
    [|repeat split; intros; try discriminate; reflexivity].
  destruct (text_eqb a b) eqn:Hab.
  - apply text_eqb_eq in Hab. subst b. split; [|split].
    + intros [H|[H|[H|H]]]; discriminate.
    + intros a' b' Ha Hb Hne. congruence.
    + intros a' Ha _. congruence.
  - assert (Hne : a <> b).
    { intros ->. rewrite (proj2 (text_eqb_eq b b) eq_refl) in Hab.
      discriminate. }
    split; [|split].
    + reflexivity.
    + intros a' b' Ha Hb _. congruence.
    + intros a' Ha Hb. congruence.
Qed.

Lemma check_version_consistency_compares_tokens_witness :
  let pyproject := lines [str "[project]"; str "version = " ++ quoted "0.2.0"] in
  let same := lines [str "__version__ = " ++ quoted "0.2.0"] in
  let other := lines [str "__version__ = " ++ quoted "0.1.0"] in
  check_version_consistency (version_files pyproject same) =
    ([CheckingVersion; VersionConsistent (str "0.2.0")], Ret true) /\
  check_version_consistency (version_files pyproject other) =
    ([CheckingVersion; VersionMismatch (str "0.2.0") (str "0.1.0")],
     Ret false) /\
  result (check_version_consistency (single_file pyproject_path pyproject)) =
    Ret false.
Proof.
  intros pyproject same other.
  split; [|split].
  - apply (check_version_consistency_compares_tokens
             (version_files pyproject same)); try reflexivity;
      intros err H; vm_compute in H; discriminate.
  - apply (check_version_consistency_compares_tokens
             (version_files pyproject other)); try reflexivity;
      try (intros err H; vm_compute in H; discriminate).
    intros H. vm_compute in H. discriminate.
  - apply (check_version_consistency_compares_tokens
             (single_file pyproject_path pyproject));
      try (intros err H; vm_compute in H; discriminate).
    right. left. reflexivity.
Defined.

(** ** The regular-expression matcher *)

Lemma pushes_capturing (w acc : text) : pushes true w acc = rev w ++ acc.
Proof.
  unfold pushes. revert acc. induction w as [|c w IH]; intros acc; simpl.
  - reflexivity.
  - rewrite IH. unfold push. now rewrite <- app_assoc.
Qed.

Lemma pushes_not_capturing (w acc : text) : pushes false w acc = acc.
Proof.
  unfold pushes. revert acc. induction w as [|c w IH]; intros acc; simpl.
  - reflexivity.
  - now rewrite IH.
Qed.

Lemma pushes_app (cap : bool) (w1 w2 acc : text) :
  pushes cap (w1 ++ w2) acc = pushes cap w2 (pushes cap w1 acc).
Proof. unfold pushes. apply fold_left_app. Qed.

Lemma match_here_chr_inv (k : cset) (re : regex) (cap : bool)
  (acc s g : text) :
  match_here (Chr k :: re) cap acc s = Some g ->
  exists c s', s = c :: s' /\ accepts k c = true /\
               match_here re cap (push cap c acc) s' = Some g.
Proof.
  simpl. destruct s as [|c s']; [discriminate|].
  destruct (accepts k c) eqn:Hc; [|discriminate].
  intros H. now exists c, s'.
Qed.

Lemma match_here_word_inv (p : text) (re : regex) (cap : bool)
  (acc s g : text) :
  match_here (map (fun c => Chr (Lit c)) p ++ re) cap acc s = Some g ->
  exists s', s = p ++ s' /\ match_here re cap (pushes cap p acc) s' = Some g.
Proof.
  revert acc s. induction p as [|a p IH]; intros acc s H.
  - now exists s.
  - change (map (fun c => Chr (Lit c)) (a :: p) ++ re)
      with (Chr (Lit a) :: (map (fun c => Chr (Lit c)) p ++ re)) in H.
    apply match_here_chr_inv in H as (c & s' & -> & Hc & H).
    unfold accepts in Hc. apply Ascii.eqb_eq in Hc. subst c.
    apply IH in H as (s'' & -> & H). now exists s''.
Qed.

Lemma match_here_word (p : text) (re : regex) (cap : bool) (acc s : text) :
  match_here (map (fun c => Chr (Lit c)) p ++ re) cap acc (p ++ s) =
  match_here re cap (pushes cap p acc) s.
Proof.
  revert acc. induction p as [|a p IH]; intros acc; [reflexivity|].
  simpl. rewrite Ascii.eqb_refl. apply IH.
Qed.

(** A repetition that matches consumed a run [w] of the class, and the
    rest of the pattern matched what follows. *)
Lemma rep_loop_inv (greedy : bool) (k : cset) (cap : bool)
  (next : text -> text -> option text) (acc s g : text) :
  rep_loop greedy k cap next acc s = Some g ->
  exists w s', s = w ++ s' /\ forallb (accepts k) w = true /\
               next (pushes cap w acc) s' = Some g.
Proof.
  revert acc. induction s as [|c s IH]; intros acc H.
  - exists [], []. simpl in H.
    destruct greedy; [now repeat split|].
    destruct (next acc []) eqn:Hn; [|discriminate].
    injection H as <-. now repeat split.
  - simpl in H. destruct greedy.
    + destruct (accepts k c) eqn:Hc.
      * destruct (rep_loop true k cap next (push cap c acc) s) eqn:Hl.
        -- injection H as <-.
           apply IH in Hl as (w & s' & -> & Hw & Hn).
           exists (c :: w), s'. simpl. now rewrite Hc.
        -- now exists [], (c :: s).
      * now exists [], (c :: s).
    + destruct (next acc (c :: s)) eqn:Hn.
      * injection H as <-. now exists [], (c :: s).
      * destruct (accepts k c) eqn:Hc; [|discriminate].
        apply IH in H as (w & s' & -> & Hw & Hn').
        exists (c :: w), s'. simpl. now rewrite Hc.
Qed.

(** A lazy repetition stops at the first place where the rest of the
    pattern matches. *)
Lemma rep_loop_lazy_inv (k : cset) (cap : bool)
  (next : text -> text -> option text) (acc s g : text) :
  rep_loop false k cap next acc s = Some g ->
  exists w s', s = w ++ s' /\ forallb (accepts k) w = true /\
               next (pushes cap w acc) s' = Some g /\
               forall w1 c w2,
                 w = w1 ++ c :: w2 ->
                 next (pushes cap w1 acc) (c :: w2 ++ s') = None.
Proof.
  revert acc. induction s as [|c s IH]; intros acc H; simpl in H.
  - destruct (next acc []) eqn:Hn; [|discriminate].
    injection H as <-. exists [], []. repeat split; try assumption.
    intros [|? ?] ? ? Hw; discriminate.
  - destruct (next acc (c :: s)) eqn:Hn.
    + injection H as <-. exists [], (c :: s). repeat split; try assumption.
      intros [|? ?] ? ? Hw; discriminate.
    + destruct (accepts k c) eqn:Hc; [|discriminate].
      apply IH in H as (w & s' & -> & Hw & Hn' & Hmin).
      exists (c :: w), s'. simpl. rewrite Hc.
      repeat split; try assumption.
      intros [|c1 w1] c' w2 Heq; simpl in Heq; injection Heq as <- ->.
      * exact Hn.
      * simpl. now apply Hmin.
Qed.

(** A greedy repetition followed by a character outside its class takes
    the whole run. *)
Lemma rep_loop_greedy_run (k : cset) (cap : bool)
  (next : text -> text -> option text) (acc w s g : text) :
  forallb (accepts k) w = true ->
  match s with
  | [] => True
  | c :: _ => accepts k c = false
  end ->
  next (pushes cap w acc) s = Some g ->
  rep_loop true k cap next acc (w ++ s) = Some g.
Proof.
  revert acc. induction w as [|c w IH]; intros acc Hw Hs Hn.
  - simpl in *. destruct s as [|c s]; simpl; [assumption|].
    now rewrite Hs.
  - simpl in Hw. apply andb_true_iff in Hw as [Hc Hw].
    simpl. rewrite Hc. now rewrite (IH (push cap c acc) Hw Hs Hn).
Qed.

Lemma rep_loop_lazy_run (k : cset) (cap : bool)
  (next : text -> text -> option text) (acc w s g : text) :
  forallb (accepts k) w = true ->
  (forall w1 c w2,
      w = w1 ++ c :: w2 ->
      next (pushes cap w1 acc) (c :: w2 ++ s) = None) ->
  next (pushes cap w acc) s = Some g ->
  rep_loop false k cap next acc (w ++ s) = Some g.
Proof.
  revert acc. induction w as [|c w IH]; intros acc Hw Hmin Hn.
  - simpl in *. destruct s as [|c s]; simpl; now rewrite Hn.
  - simpl in Hw. apply andb_true_iff in Hw as [Hc Hw].
    pose proof (Hmin [] c w eq_refl) as Hfirst.
    change (pushes cap [] acc) with acc in Hfirst.
    simpl. rewrite Hfirst, Hc.
    apply IH; try assumption.
    intros w1 c' w2 ->. exact (Hmin (c :: w1) c' w2 eq_refl).
Qed.

(** A match needs every literal character of the pattern in the text. *)
Lemma match_here_needs_literal (re : regex) (cap : bool) (acc s g : text)
  (a : ascii) :
  match_here re cap acc s = Some g -> In (Chr (Lit a)) re -> In a s.
Proof.
  revert cap acc s.
  induction re as [|n re IH]; intros cap acc s H Hin; [destruct Hin|].
  destruct n as [k|greedy k| |].
  - apply match_here_chr_inv in H as (c & s' & -> & Hc & H).
    destruct Hin as [Heq|Hin].
    + injection Heq as ->. unfold accepts in Hc. apply Ascii.eqb_eq in Hc.
      now left.
    + right. exact (IH _ _ _ H Hin).
  - destruct Hin as [Heq|Hin]; [discriminate|].
    simpl in H. apply rep_loop_inv in H as (w & s' & -> & _ & H).
    apply in_or_app. right. exact (IH _ _ _ H Hin).
  - destruct Hin as [Heq|Hin]; [discriminate|].
    simpl in H. exact (IH _ _ _ H Hin).
  - destruct Hin as [Heq|Hin]; [discriminate|].
    simpl in H. exact (IH _ _ _ H Hin).
Qed.

(** *** Search *)

Lemma search_here (re : regex) (s g : text) :
  match_here re false [] s = Some g -> search re s = Some g.
Proof. intros H. destruct s; simpl; now rewrite H. Qed.

Lemma search_without_literal (re : regex) (s : text) (a : ascii) :
  In (Chr (Lit a)) re -> ~ In a s -> search re s = None.
Proof.
  intros Hre. induction s as [|c s IH]; intros Hs; simpl.
  - destruct (match_here re false [] []) eqn:H; [|reflexivity].
    destruct (match_here_needs_literal _ _ _ _ _ a H Hre).
  - destruct (match_here re false [] (c :: s)) eqn:H.
    + destruct Hs. exact (match_here_needs_literal _ _ _ _ _ a H Hre).
    + apply IH. intros Hin. apply Hs. now right.
Qed.

Lemma forallb_seq_shift (f : nat -> bool) (m n : nat) :
  forallb f (seq (S m) n) = forallb (fun k => f (S k)) (seq m n).
Proof.
  revert m. induction n as [|n IH]; intros m; simpl; [reflexivity|].
  now rewrite IH.
Qed.

Lemma no_match_before_cons (re : regex) (c : ascii) (s : text) (n : nat) :
  no_match_before re (c :: s) (S n) =
  match match_here re false [] (c :: s) with
  | Some _ => false
  | None => true
  end && no_match_before re s n.
Proof.
  unfold no_match_before. simpl seq. cbn [forallb skipn].
  now rewrite forallb_seq_shift.
Qed.

(** Positions at which no match starts are skipped by [search]. *)
Lemma search_skip (re : regex) (pre t : text) :
  no_match_before re (pre ++ t) (List.length pre) = true ->
  search re (pre ++ t) = search re t.
Proof.
  induction pre as [|c pre IH]; intros H; [reflexivity|].
  simpl app in *. simpl List.length in H.
  rewrite no_match_before_cons in H. apply andb_true_iff in H as [Hc H].
  simpl search.
  destruct (match_here re false [] (c :: pre ++ t)); [discriminate|].
  now apply IH.
Qed.

(** [search] returns the match at the first position where one starts. *)
Lemma search_inv (re : regex) (s g : text) :
  search re s = Some g ->
  exists pre t, s = pre ++ t /\ match_here re false [] t = Some g /\
                no_match_before re s (List.length pre) = true.
Proof.
  induction s as [|c s IH]; simpl; intros H.
  - destruct (match_here re false [] []) eqn:Hm; [|discriminate].
    injection H as <-. now exists [], [].
  - destruct (match_here re false [] (c :: s)) eqn:Hm.
    + injection H as <-. now exists [], (c :: s).
    + apply IH in H as (pre & t & -> & Ht & Hno).
      exists (c :: pre), t. repeat split; try assumption.
      simpl List.length. simpl app.
      rewrite no_match_before_cons. simpl app in Hm. now rewrite Hm.
Qed.

Lemma match_here_rep_inv (greedy : bool) (k : cset) (re : regex) (cap : bool)
  (acc s g : text) :
  match_here (Rep greedy k :: re) cap acc s = Some g ->
  exists w s', s = w ++ s' /\ forallb (accepts k) w = true /\
               match_here re cap (pushes cap w acc) s' = Some g.
Proof. apply rep_loop_inv. Qed.

Lemma match_here_rep (greedy : bool) (k : cset) (re : regex) (cap : bool)
  (acc s : text) :
  match_here (Rep greedy k :: re) cap acc s =
  rep_loop greedy k cap (match_here re cap) acc s.
Proof. reflexivity. Qed.

Lemma match_here_group_start (re : regex) (cap : bool) (acc s : text) :
  match_here (GroupStart :: re) cap acc s = match_here re true [] s.
Proof. reflexivity. Qed.

Lemma match_here_chr (a : ascii) (re : regex) (cap : bool) (acc s : text) :
  match_here (Chr (Lit a) :: re) cap acc (a :: s) =
  match_here re cap (push cap a acc) s.
Proof. simpl. now rewrite Ascii.eqb_refl. Qed.

Lemma spaces_without (a : ascii) (w : text) :
  isspace a = false -> spaces w -> ~ In a w.
Proof.
  intros Ha Hw Hin. unfold spaces in Hw.
  rewrite forallb_forall in Hw. specialize (Hw a Hin). congruence.
Qed.

Lemma forallb_any (w : text) : forallb (accepts AnyChar) w = true.
Proof. induction w; simpl; auto. Qed.

(** *** The pattern of the dependency check *)

Lemma closing_match (acc s g : text) :
  match_here closing true acc s = Some g <->
  exists post, s = "]"%char :: post /\ g = rev acc.
Proof.
  assert (E : match_here closing true acc s =
              match s with
              | [] => None
              | c :: _ => if Ascii.eqb "]" c then Some (rev acc) else None
              end) by (destruct s; reflexivity).
  rewrite E. clear E. destruct s as [|c s].
  - split; [discriminate|intros (post & H & _); discriminate].
  - destruct (Ascii.eqb "]" c) eqn:Hc.
    + apply Ascii.eqb_eq in Hc. subst c. split.
      * intros H. injection H as <-. now exists s.
      * intros (post & _ & ->). reflexivity.
    + apply Ascii.eqb_neq in Hc. split; [discriminate|].
      intros (post & H & _). injection H as H _. congruence.
Qed.

Lemma closing_fails (acc s : text) (c : ascii) :
  c <> "]"%char -> match_here closing true acc (c :: s) = None.
Proof.
  intros Hc. destruct (match_here closing true acc (c :: s)) eqn:H;
    [|reflexivity].
  apply closing_match in H as (post & H & _). injection H as H _.
  contradiction.
Qed.

(** A match of the pattern at the start of [s]: the word, white space,
    the equals sign, white space, the opening bracket, then the captured
    text up to the first closing bracket. *)
Lemma dependencies_match_inv (s g : text) :
  match_here dependencies_re false [] s = Some g ->
  exists ws1 ws2 post,
    s = str "dependencies" ++ ws1 ++ str "=" ++ ws2 ++ str "[" ++
        g ++ str "]" ++ post /\
    spaces ws1 /\ spaces ws2 /\ ~ In "]"%char g.
Proof.
  unfold dependencies_re, lit. intros H.
  apply match_here_word_inv in H as (s1 & -> & H).
  rewrite pushes_not_capturing in H.
  apply match_here_rep_inv in H as (ws1 & s2 & -> & Hws1 & H).
  rewrite pushes_not_capturing in H.
  apply match_here_chr_inv in H as (c & s3 & -> & Hc & H).
  unfold accepts in Hc. apply Ascii.eqb_eq in Hc. subst c.
  change (push false "=" []) with (@nil ascii) in H.
  apply match_here_rep_inv in H as (ws2 & s4 & -> & Hws2 & H).
  rewrite pushes_not_capturing in H.
  apply match_here_chr_inv in H as (c & s5 & -> & Hc & H).
  unfold accepts in Hc. apply Ascii.eqb_eq in Hc. subst c.
  rewrite match_here_group_start, match_here_rep in H.
  change (match_here [GroupEnd; Chr (Lit "]")]) with (match_here closing) in H.
  apply rep_loop_lazy_inv in H as (w & s6 & -> & _ & H & Hmin).
  apply closing_match in H as (post & -> & ->).
  rewrite pushes_capturing, app_nil_r, rev_involutive.
  exists ws1, ws2, post. repeat split; try assumption.
  intros Hin. apply in_split in Hin as (w1 & w2 & ->).
  specialize (Hmin w1 "]"%char w2 eq_refl).
  rewrite (proj2 (closing_match (pushes true w1 [])
                    ("]"%char :: w2 ++ "]"%char :: post)
                    (rev (pushes true w1 [])))) in Hmin; [discriminate|].
  exists (w2 ++ "]"%char :: post). now split.
Qed.

Lemma dependencies_match (ws1 ws2 g post : text) :
  spaces ws1 -> spaces ws2 -> ~ In "]"%char g ->
  match_here dependencies_re false []
    (str "dependencies" ++ ws1 ++ str "=" ++ ws2 ++ str "[" ++
     g ++ str "]" ++ post) = Some g.
Proof.
  intros Hws1 Hws2 Hg. unfold dependencies_re, lit.
  rewrite match_here_word, pushes_not_capturing, match_here_rep.
  apply rep_loop_greedy_run; [exact Hws1|reflexivity|].
  rewrite pushes_not_capturing.
  change (str "=" ++ ws2 ++ str "[" ++ g ++ str "]" ++ post)
    with ("="%char :: ws2 ++ "["%char :: g ++ "]"%char :: post).
  rewrite match_here_chr, match_here_rep.
  apply rep_loop_greedy_run; [exact Hws2|reflexivity|].
  rewrite pushes_not_capturing, match_here_chr, match_here_group_start,
    match_here_rep.
  apply rep_loop_lazy_run.
  - apply forallb_any.
  - intros w1 c w2 ->. apply closing_fails.
    intros ->. apply Hg. apply in_or_app. right. now left.
  - apply closing_match. exists post.
    now rewrite pushes_capturing, app_nil_r, rev_involutive.
Qed.

Lemma dependencies_re_has_closing_bracket :
  In (Chr (Lit "]")) dependencies_re.
Proof. unfold dependencies_re. apply in_or_app. right. simpl. tauto. Qed.

(** C10.  On a metadata document:
    - when the pattern matches, the text the check inspects lies between
      the opening bracket after the leftmost [dependencies =] and the
      first closing bracket after it, and the result depends on that text
      alone;
    - so when the leftmost array is free of openai up to its first closing
      bracket, the check returns [True] whatever follows that bracket;
    - and when no closing bracket follows the opening one, the pattern
      does not match and the check returns [True]. *)
Theorem check_dependencies_stops_at_first_closing_bracket :
  forall (fs : filesystem) (doc : text),
    fs pyproject_path = File doc ->
    (forall core_deps,
        search dependencies_re doc = Some core_deps ->
        (exists pre ws1 ws2 post,
            doc = pre ++ str "dependencies" ++ ws1 ++ str "=" ++ ws2 ++
                  str "[" ++ core_deps ++ str "]" ++ post /\
            no_match_before dependencies_re doc (List.length pre) = true /\
            spaces ws1 /\ spaces ws2 /\ ~ In "]"%char core_deps) /\
        result (check_dependencies fs) =
          Ret (negb (contains (str "openai") (lower core_deps)))) /\
    (forall pre ws1 ws2 inside post,
        doc = pre ++ str "dependencies" ++ ws1 ++ str "=" ++ ws2 ++
              str "[" ++ inside ++ str "]" ++ post ->
        no_match_before dependencies_re doc (List.length pre) = true ->
        spaces ws1 -> spaces ws2 -> ~ In "]"%char inside ->
        ~ occurs_ignoring_case (str "openai") inside ->
        search dependencies_re doc = Some inside /\
        check_dependencies fs =
          ([CheckingDependencies; DependenciesOk], Ret true)) /\
    (forall pre ws1 ws2 rest,
        doc = pre ++ str "dependencies" ++ ws1 ++ str "=" ++ ws2 ++
              str "[" ++ rest ->
        no_match_before dependencies_re doc (List.length pre) = true ->
        spaces ws1 -> spaces ws2 -> ~ In "]"%char rest ->
        search dependencies_re doc = None /\
        check_dependencies fs =
          ([CheckingDependencies; DependenciesOk], Ret true)).
Proof.
  intros fs doc Hfs. rewrite (check_dependencies_on_doc fs doc Hfs).
  split; [|split].
  - intros core_deps Hs. rewrite Hs. split.
    + apply search_inv in Hs as (pre & t & -> & Hm & Hno).
      apply dependencies_match_inv in Hm
        as (ws1 & ws2 & post & -> & H1 & H2 & Hg).
      now exists pre, ws1, ws2, post.
    + now destruct (contains (str "openai") (lower core_deps)).
  - intros pre ws1 ws2 inside post -> Hno H1 H2 Hin Hocc.
    rewrite (search_skip _ _ _ Hno).
    rewrite (search_here _ _ _
               (dependencies_match ws1 ws2 inside post H1 H2 Hin)).
    apply contains_lower_false_iff in Hocc; [|reflexivity].
    now rewrite Hocc.
  - intros pre ws1 ws2 rest -> Hno H1 H2 Hrest.
    rewrite (search_skip _ _ _ Hno).
    rewrite (search_without_literal dependencies_re _ "]"
               dependencies_re_has_closing_bracket); [now split|].
    rewrite !in_app_iff. intros [H|[H|[H|[H|[H|H]]]]].
    + vm_compute in H. intuition discriminate.
    + exact (spaces_without "]" ws1 eq_refl H1 H).
    + vm_compute in H. intuition discriminate.
    + exact (spaces_without "]" ws2 eq_refl H2 H).
    + vm_compute in H. intuition discriminate.
    + exact (Hrest H).
Qed.

(** An array whose first closing bracket closes a nested pair: openai,
    listed after it, is not seen; and an array that is never closed. *)
Lemma check_dependencies_stops_at_first_closing_bracket_witness :
  let nested :=
    lines [str "[project]";
           str "dependencies = [" ++ quoted "pkg[extra]" ++ str ", " ++
           quoted "openai" ++ str "]"] in
  let unclosed :=
    lines [str "[project]"; str "dependencies = ["; quoted "openai" ++ str ","] in
  occurs (str "openai") nested /\
  check_dependencies (single_file pyproject_path nested) =
    ([CheckingDependencies; DependenciesOk], Ret true) /\
  search dependencies_re unclosed = None /\
  check_dependencies (single_file pyproject_path unclosed) =
    ([CheckingDependencies; DependenciesOk], Ret true).
Proof.
  intros nested unclosed.
  split; [apply contains_iff; reflexivity|].
  split.
  - refine (proj2 (proj1 (proj2
      (check_dependencies_stops_at_first_closing_bracket
         (single_file pyproject_path nested) nested eq_refl))
      (lines [str "[project]"]) (str " ") (str " ")
      (dquote :: str "pkg[extra")
      (dquote :: str ", " ++ quoted "openai" ++ str "]" ++ [newline])
      eq_refl eq_refl eq_refl eq_refl _ _)).
    + vm_compute. intuition discriminate.
    + apply contains_lower_false_iff; reflexivity.
  - refine (proj2 (proj2
      (check_dependencies_stops_at_first_closing_bracket
         (single_file pyproject_path unclosed) unclosed eq_refl))
      (lines [str "[project]"]) (str " ") (str " ")
      (newline :: quoted "openai" ++ str "," ++ [newline])
      eq_refl eq_refl eq_refl eq_refl _).
    vm_compute. intuition discriminate.
Defined.

(** ** Runs of the scripts *)

Example main_on_ready_tree :
  exit_code (main ready_tree) = 0%Z /\
  summary (main ready_tree) =
    [("Version Consistency"%string, true); ("Required Files"%string, true);
     ("Package Metadata"%string, true); ("README Content"%string, true);
     ("Dependencies"%string, true)].
Proof. split; reflexivity. Qed.

Example main_on_unreadable_readme :
  exit_code (main unreadable_readme_tree) = 1%Z /\
  summary (main unreadable_readme_tree) =
    [("Version Consistency"%string, true); ("Required Files"%string, true);
     ("Package Metadata"%string, true); ("README Content"%string, false);
     ("Dependencies"%string, true)] /\
  In (ErrorIn "README Content" (str "Permission denied"))
     (console (main unreadable_readme_tree)) /\
  In DependenciesOk (console (main unreadable_readme_tree)).
Proof. repeat split; vm_compute; tauto. Qed.

Example search_version_in_ready_pyproject :
  search pyproject_version_re ready_pyproject = Some (str "0.1.0") /\
  search dependencies_re ready_pyproject = Some (quoted "pyyaml").
Proof. split; reflexivity. Qed.

Example search_needs_a_nonempty_version :
  search version_py_re (str "__version__ = " ++ [dquote; dquote]) = None.
Proof. reflexivity. Qed.

Example lower_examples :
  lower (str "OpenAI README.md") = str "openai readme.md".
Proof. reflexivity. Qed.

(** * Further properties of the scripts *)

(** ** Each check, by the state of the file it reads *)

Lemma check_package_metadata_cases (fs : filesystem) :
  check_package_metadata fs =
    match fs pyproject_path with
    | Absent => ([CheckingMetadata; PyprojectNotFound], Ret false)
    | Unreadable err => ([CheckingMetadata], Raise err)
    | File doc =>
        if truthy (missing_fields doc)
        then ([CheckingMetadata; MissingMetadataFields (missing_fields doc)],
              Ret false)
        else ([CheckingMetadata; MetadataComplete], Ret true)
    end.
Proof.
  unfold check_package_metadata, path_exists, read_text.
  destruct (fs pyproject_path) as [|err|doc]; run_check;
    [reflexivity|reflexivity|].
  destruct (truthy (missing_fields doc)); reflexivity.
Qed.

Lemma check_readme_cases (fs : filesystem) :
  check_readme fs =
    match fs readme_path with
    | Absent => ([CheckingReadme; ReadmeNotFound], Ret false)
    | Unreadable err => ([CheckingReadme], Raise err)
    | File readme =>
        if truthy (missing_sections (lower readme))
        then ([CheckingReadme;
               ReadmeMissingSections (missing_sections (lower readme))],
              Ret false)
        else ([CheckingReadme; ReadmeOk], Ret true)
    end.
Proof.
  unfold check_readme, path_exists, read_text.
  destruct (fs readme_path) as [|err|readme]; run_check;
    [reflexivity|reflexivity|].
  destruct (truthy (missing_sections (lower readme))); reflexivity.
Qed.

Lemma check_dependencies_cases (fs : filesystem) :
  check_dependencies fs =
    match fs pyproject_path with
    | Absent => ([CheckingDependencies; PyprojectNotFound], Ret false)
    | Unreadable err => ([CheckingDependencies], Raise err)
    | File doc =>
        match search dependencies_re doc with
        | Some core_deps =>
            if contains (str "openai") (lower core_deps)
            then ([CheckingDependencies; OpenAIInCoreDependencies], Ret false)
            else ([CheckingDependencies; DependenciesOk], Ret true)
        | None => ([CheckingDependencies; DependenciesOk], Ret true)
        end
    end.
Proof.
  unfold check_dependencies, path_exists, read_text.
  destruct (fs pyproject_path) as [|err|doc]; run_check;
    [reflexivity|reflexivity|].
  destruct (search dependencies_re doc) as [core_deps|]; [|reflexivity].
  destruct (contains (str "openai") (lower core_deps)); reflexivity.
Qed.

Lemma check_required_files_cases (fs : filesystem) :
  check_required_files fs =
    if truthy (missing_files fs)
    then ([CheckingRequiredFiles; MissingRequiredFiles (missing_files fs)],
          Ret false)
    else ([CheckingRequiredFiles; AllRequiredFilesPresent], Ret true).
Proof.
  unfold check_required_files. run_check.
  destruct (truthy (missing_files fs)); reflexivity.
Qed.

(** ** When a check raises *)

(** X3.  The metadata, readme and dependency checks raise exactly when the
    one file they read exists but cannot be read, with the error of the
    read and after printing their heading only. *)
Theorem checks_raise_only_on_unreadable_file :
  forall (fs : filesystem) (e : text),
    (check_package_metadata fs = ([CheckingMetadata], Raise e) <->
     fs pyproject_path = Unreadable e) /\
    (result (check_package_metadata fs) = Raise e <->
     fs pyproject_path = Unreadable e) /\
    (check_readme fs = ([CheckingReadme], Raise e) <->
     fs readme_path = Unreadable e) /\
    (result (check_readme fs) = Raise e <->
     fs readme_path = Unreadable e) /\
    (check_dependencies fs = ([CheckingDependencies], Raise e) <->
     fs pyproject_path = Unreadable e) /\
    (result (check_dependencies fs) = Raise e <->
     fs pyproject_path = Unreadable e).
Proof.
  intros fs e.
  rewrite check_package_metadata_cases, check_readme_cases,
    check_dependencies_cases.
  repeat split;
    try (destruct (fs pyproject_path) as [|err|doc];
         try destruct (truthy (missing_fields doc));
         try (destruct (search dependencies_re doc) as [core_deps|];
              try destruct (contains (str "openai") (lower core_deps)));
         simpl; congruence);
    try (destruct (fs readme_path) as [|err|readme];
         try destruct (truthy (missing_sections (lower readme)));
         simpl; congruence).
Qed.

(** X4.  The version check raises exactly when [pyproject.toml] exists
    but cannot be read, or when a token was found in [pyproject.toml] and
    [_version.py] exists but cannot be read.  When [pyproject.toml] is
    absent or holds no token the check returns [False] without looking at
    [_version.py]. *)
Theorem check_version_consistency_raises_iff :
  forall (fs : filesystem) (e : text),
    (result (check_version_consistency fs) = Raise e <->
     fs pyproject_path = Unreadable e \/
     exists content version,
       fs pyproject_path = File content /\
       search pyproject_version_re content = Some version /\
       fs version_path = Unreadable e) /\
    (fs pyproject_path = Absent ->
     check_version_consistency fs =
       ([CheckingVersion; PyprojectNotFound], Ret false)) /\
    (forall content,
        fs pyproject_path = File content ->
        search pyproject_version_re content = None ->
        check_version_consistency fs =
          ([CheckingVersion; VersionNotFoundInPyproject], Ret false)).
Proof.
  intros fs e. rewrite check_version_consistency_cases.
  split; [|split].
  - destruct (fs pyproject_path) as [|err|content] eqn:Hp.
    + split; [discriminate|].
      intros [H|(c & v & H & _)]; discriminate.
    + simpl. split.
      * intros H. left. congruence.
      * intros [H|(c & v & H & _)]; congruence.
    + destruct (search pyproject_version_re content) as [a|] eqn:Hs.
      * destruct (fs version_path) as [|err|content'] eqn:Hv.
        -- split; [discriminate|].
           intros [H|(c & v & _ & _ & H)]; discriminate.
        -- simpl. split.
           ++ intros H. right. exists content, a.
              repeat split; congruence.
           ++ intros [H|(c & v & _ & _ & H)]; congruence.
        -- split.
           ++ destruct (search version_py_re content');
                [destruct (text_eqb a t)|]; discriminate.
           ++ intros [H|(c & v & _ & _ & H)]; discriminate.
      * split; [discriminate|].
        intros [H|(c & v & Hc & Hsv & _)]; [discriminate|].
        injection Hc as <-. congruence.
  - now intros ->.
  - intros content -> Hs. now rewrite Hs.
Qed.

(** ** When each check passes *)

Lemma passed_required_files_iff (fs : filesystem) :
  passed (check_required_files fs) = true <->
  forall p, In p required_files -> path_exists fs p = true.
Proof.
  rewrite check_required_files_cases. unfold passed, result.
  destruct (truthy (missing_files fs)) eqn:Ht; simpl.
  - split; [discriminate|]. intros Hall.
    assert (Hm : missing_files fs = []).
    { rewrite missing_files_filter. apply filter_nil_iff.
      intros p Hp. now rewrite (Hall p Hp). }
    rewrite Hm in Ht. discriminate.
  - split; [|reflexivity]. intros _ p Hp.
    apply truthy_false_iff in Ht. rewrite missing_files_filter in Ht.
    apply negb_false_iff. exact (proj1 (filter_nil_iff _ _) Ht p Hp).
Qed.

Lemma passed_version_iff (fs : filesystem) :
  passed (check_version_consistency fs) = true <->
  exists pyproject version_py version,
    fs pyproject_path = File pyproject /\
    fs version_path = File version_py /\
    search pyproject_version_re pyproject = Some version /\
    search version_py_re version_py = Some version.
Proof.
  rewrite check_version_consistency_cases. unfold passed, result.
  destruct (fs pyproject_path) as [|err|c]; simpl;
    try (split; [discriminate|intros (? & ? & ? & H & _); discriminate]).
  destruct (search pyproject_version_re c) as [a|] eqn:Ha; simpl.
  2:{ split; [discriminate|].
      intros (? & ? & ? & H & _ & Hs & _). injection H as <-. congruence. }
  destruct (fs version_path) as [|err|c']; simpl;
    try (split; [discriminate|intros (? & ? & ? & _ & H & _); discriminate]).
  destruct (search version_py_re c') as [b|] eqn:Hb; simpl.
  2:{ split; [discriminate|].
      intros (? & ? & ? & _ & H & _ & Hs). injection H as <-. congruence. }
  destruct (text_eqb a b) eqn:Hab; simpl.
  - apply text_eqb_eq in Hab. subst b. split; [|reflexivity].
    intros _. now exists c, c', a.
  - split; [discriminate|].
    intros (? & ? & v & H1 & H2 & Hs1 & Hs2).
    injection H1 as <-. injection H2 as <-.
    assert (a = b) by congruence. subst b.
    rewrite (proj2 (text_eqb_eq a a) eq_refl) in Hab. discriminate.
Qed.

Lemma passed_metadata_iff (fs : filesystem) :
  passed (check_package_metadata fs) = true <->
  exists doc,
    fs pyproject_path = File doc /\
    forall field,
      In field required_fields ->
      occurs (str (field ++ " =")) doc \/ occurs (str (field ++ "=")) doc.
Proof.
  rewrite check_package_metadata_cases. unfold passed, result.
  destruct (fs pyproject_path) as [|err|doc]; simpl;
    try (split; [discriminate|intros (? & H & _); discriminate]).
  destruct (truthy (missing_fields doc)) eqn:Ht; simpl.
  - split; [discriminate|]. intros (d & H & Hall). injection H as <-.
    assert (Hm : missing_fields doc = []).
    { rewrite missing_fields_filter. apply filter_nil_iff.
      intros field Hin. apply field_absent_false_iff. now apply Hall. }
    rewrite Hm in Ht. discriminate.
  - split; [|reflexivity]. intros _. exists doc. split; [reflexivity|].
    intros field Hin. apply truthy_false_iff in Ht.
    rewrite missing_fields_filter in Ht. apply field_absent_false_iff.
    exact (proj1 (filter_nil_iff _ _) Ht field Hin).
Qed.

Lemma passed_readme_iff (fs : filesystem) :
  passed (check_readme fs) = true <->
  exists readme,
    fs readme_path = File readme /\
    forall section,
      In section required_sections ->
      occurs_ignoring_case (str section) readme.
Proof.
  rewrite check_readme_cases. unfold passed, result.
  destruct (fs readme_path) as [|err|readme]; simpl;
    try (split; [discriminate|intros (? & H & _); discriminate]).
  destruct (truthy (missing_sections (lower readme))) eqn:Ht; simpl.
  - split; [discriminate|]. intros (d & H & Hall). injection H as <-.
    assert (Hm : missing_sections (lower readme) = []).
    { rewrite missing_sections_filter. apply filter_nil_iff.
      intros section Hin. apply negb_false_iff.
      apply contains_lower_iff; [now apply required_sections_lowercase|].
      now apply Hall. }
    rewrite Hm in Ht. discriminate.
  - split; [|reflexivity]. intros _. exists readme. split; [reflexivity|].
    intros section Hin. apply truthy_false_iff in Ht.
    rewrite missing_sections_filter in Ht.
    pose proof (proj1 (filter_nil_iff _ _) Ht section Hin) as Hc.
    apply negb_false_iff in Hc.
    apply contains_lower_iff in Hc; [assumption|].
    now apply required_sections_lowercase.
Qed.

Lemma passed_dependencies_iff (fs : filesystem) :
  passed (check_dependencies fs) = true <->
  exists doc,
    fs pyproject_path = File doc /\
    forall core_deps,
      search dependencies_re doc = Some core_deps ->
      ~ occurs_ignoring_case (str "openai") core_deps.
Proof.
  rewrite check_dependencies_cases. unfold passed, result.
  destruct (fs pyproject_path) as [|err|doc]; cbn [snd];
    try (split; [discriminate|intros (? & H & _); discriminate]).
  destruct (search dependencies_re doc) as [g|] eqn:Hs.
  - destruct (contains (str "openai") (lower g)) eqn:Hc; cbn [snd].
    + split; [discriminate|]. intros (d & H & Hall). injection H as <-.
      apply contains_lower_iff in Hc; [|reflexivity].
      destruct (Hall g Hs Hc).
    + split; [|reflexivity]. intros _. exists doc. split; [reflexivity|].
      intros g' Hg'. assert (g' = g) by congruence. subst g'.
      now apply contains_lower_false_iff.
  - cbn [snd]. split; [|reflexivity]. intros _. exists doc.
    split; [reflexivity|]. intros g' Hg'. congruence.
Qed.

Lemma main_exit_code_passed (fs : filesystem) :
  exit_code (main fs) =
    if passed (check_version_consistency fs) &&
       passed (check_required_files fs) &&
       passed (check_package_metadata fs) &&
       passed (check_readme fs) &&
       passed (check_dependencies fs)
    then 0%Z else 1%Z.
Proof.
  unfold main. rewrite main_with_exit_code. unfold checks.
  cbn [forallb snd]. now rewrite andb_true_r, !andb_assoc.
Qed.

(** X1.  The checklist exits with 0 exactly on a working directory that
    is ready: the seven required paths exist; [pyproject.toml],
    [_version.py] and [README.md] can be read; the two version patterns
    find the same token; each metadata field name occurs followed by an
    equals sign; the three readme keywords occur in some letter case; and
    the dependency array, when the pattern finds one, is free of openai. *)
Theorem main_exits_zero_iff_release_ready :
  forall fs : filesystem,
    exit_code (main fs) = 0%Z <-> release_ready fs.
Proof.
  intros fs. rewrite main_exit_code_passed. unfold release_ready.
  split.
  - intros H.
    destruct (passed (check_version_consistency fs)) eqn:Hv;
      [|discriminate].
    destruct (passed (check_required_files fs)) eqn:Hf; [|discriminate].
    destruct (passed (check_package_metadata fs)) eqn:Hm; [|discriminate].
    destruct (passed (check_readme fs)) eqn:Hr; [|discriminate].
    destruct (passed (check_dependencies fs)) eqn:Hd; [|discriminate].
    apply passed_version_iff in Hv as (py & vp & v & Hpy & Hvp & Hs1 & Hs2).
    apply passed_metadata_iff in Hm as (doc & Hdoc & Hfields).
    apply passed_readme_iff in Hr as (readme & Hreadme & Hsections).
    apply passed_dependencies_iff in Hd as (doc' & Hdoc' & Hdeps).
    assert (doc = py) by congruence. assert (doc' = py) by congruence.
    subst doc doc'.
    exists py, vp, readme, v. repeat split; try assumption.
    now apply passed_required_files_iff.
  - intros (py & vp & readme & v & Hpy & Hvp & Hreadme & Hfiles & Hs1 & Hs2 &
            Hfields & Hsections & Hdeps).
    rewrite (proj2 (passed_version_iff fs)) by now exists py, vp, v.
    rewrite (proj2 (passed_required_files_iff fs)) by assumption.
    rewrite (proj2 (passed_metadata_iff fs)) by now exists py.
    rewrite (proj2 (passed_readme_iff fs)) by now exists readme.
    rewrite (proj2 (passed_dependencies_iff fs)) by now exists py.
    reflexivity.
Qed.

(** X2.  When [pyproject.toml] is absent, the version, metadata and
    dependency checks each print that it was not found and return
    [False], the required-files check lists it among the missing paths,
    and [main] exits with 1, with only the readme check left to pass. *)
Theorem main_without_pyproject :
  forall fs : filesystem,
    fs pyproject_path = Absent ->
    check_version_consistency fs =
      ([CheckingVersion; PyprojectNotFound], Ret false) /\
    check_package_metadata fs =
      ([CheckingMetadata; PyprojectNotFound], Ret false) /\
    check_dependencies fs =
      ([CheckingDependencies; PyprojectNotFound], Ret false) /\
    (exists missing,
        check_required_files fs =
          ([CheckingRequiredFiles; MissingRequiredFiles missing], Ret false) /\
        In pyproject_path missing) /\
    summary (main fs) =
      [("Version Consistency"%string, false);
       ("Required Files"%string, false);
       ("Package Metadata"%string, false);
       ("README Content"%string, passed (check_readme fs));
       ("Dependencies"%string, false)] /\
    exit_code (main fs) = 1%Z.
Proof.
  intros fs Hp.
  assert (Hv : check_version_consistency fs =
               ([CheckingVersion; PyprojectNotFound], Ret false))
    by now rewrite check_version_consistency_cases, Hp.
  assert (Hm : check_package_metadata fs =
               ([CheckingMetadata; PyprojectNotFound], Ret false))
    by now rewrite check_package_metadata_cases, Hp.
  assert (Hd : check_dependencies fs =
               ([CheckingDependencies; PyprojectNotFound], Ret false))
    by now rewrite check_dependencies_cases, Hp.
  assert (Hin : In pyproject_path (missing_files fs)).
  { apply In_missing_files. split; [simpl; tauto|].
    unfold path_exists. now rewrite Hp. }
  assert (Hf : check_required_files fs =
               ([CheckingRequiredFiles; MissingRequiredFiles (missing_files fs)],
                Ret false)).
  { rewrite check_required_files_cases.
    destruct (missing_files fs); [destruct Hin|reflexivity]. }
  repeat split; try assumption.
  - now exists (missing_files fs).
  - unfold main. rewrite main_with_summary. unfold checks.
    cbn [map fst snd]. unfold passed at 1 2 3 5. now rewrite Hv, Hf, Hm, Hd.
  - rewrite main_exit_code_passed. unfold passed at 1. now rewrite Hv.
Qed.

Lemma main_without_pyproject_witness :
  let fs := tree [] in
  fs pyproject_path = Absent /\ exit_code (main fs) = 1%Z.
Proof.
  intros fs. split; [reflexivity|].
  apply (main_without_pyproject fs). reflexivity.
Defined.

(** ** The version patterns *)

Lemma group_end_match (a : ascii) (acc s g : text) :
  match_here [GroupEnd; Chr (Lit a)] true acc s = Some g <->
  exists post, s = a :: post /\ g = rev acc.
Proof.
  assert (E : match_here [GroupEnd; Chr (Lit a)] true acc s =
              match s with
              | [] => None
              | c :: _ => if Ascii.eqb a c then Some (rev acc) else None
              end) by (destruct s; reflexivity).
  rewrite E. clear E. destruct s as [|c s].
  - split; [discriminate|intros (post & H & _); discriminate].
  - destruct (Ascii.eqb a c) eqn:Hc.
    + apply Ascii.eqb_eq in Hc. subst c. split.
      * intros H. injection H as <-. now exists s.
      * intros (post & _ & ->). reflexivity.
    + apply Ascii.eqb_neq in Hc. split; [discriminate|].
      intros (post & H & _). injection H as H _. congruence.
Qed.

Lemma accepts_not_lit (a c : ascii) :
  accepts (NotLit a) c = true <-> c <> a.
Proof.
  unfold accepts. rewrite negb_true_iff, Ascii.eqb_neq.
  split; intros H E; apply H; now symmetry.
Qed.

Lemma forallb_not_lit (a : ascii) (w : text) :
  forallb (accepts (NotLit a)) w = true <-> ~ In a w.
Proof.
  induction w as [|c w IH]; cbn [forallb].
  - split; [intros _ []|reflexivity].
  - rewrite andb_true_iff, accepts_not_lit, IH. cbn [In].
    split.
    + intros [Hc Hw] [E|E]; [now apply Hc|now apply Hw].
    + intros H. split; [intros E|intros E]; apply H; [now left|now right].
Qed.

Lemma match_here_chr_accepted (k : cset) (c : ascii) (re : regex)
  (cap : bool) (acc s : text) :
  accepts k c = true ->
  match_here (Chr k :: re) cap acc (c :: s) =
  match_here re cap (push cap c acc) s.
Proof. intros H. simpl. now rewrite H. Qed.

Lemma pyproject_version_re_eq :
  pyproject_version_re =
    map (fun c => Chr (Lit c)) (str "version") ++ version_tail.
Proof. reflexivity. Qed.

Lemma version_py_re_eq :
  version_py_re =
    map (fun c => Chr (Lit c)) (str "__version__") ++ version_tail.
Proof. reflexivity. Qed.

(** A match of a version pattern at the start of [s]: the key, white
    space, the equals sign, white space, and between two double quotes a
    token that is not empty and holds no double quote. *)
Lemma version_match_inv (key s g : text) :
  match_here (map (fun c => Chr (Lit c)) key ++ version_tail) false [] s =
    Some g ->
  exists ws1 ws2 post,
    s = key ++ ws1 ++ str "=" ++ ws2 ++ [dquote] ++ g ++ [dquote] ++ post /\
    spaces ws1 /\ spaces ws2 /\ g <> [] /\ ~ In dquote g.
Proof.
  intros H.
  apply match_here_word_inv in H as (s1 & -> & H).
  rewrite pushes_not_capturing in H.
  unfold version_tail, plus in H. cbn [app] in H.
  apply match_here_rep_inv in H as (ws1 & s2 & -> & Hws1 & H).
  rewrite pushes_not_capturing in H.
  apply match_here_chr_inv in H as (c & s3 & -> & Hc & H).
  unfold accepts in Hc. apply Ascii.eqb_eq in Hc. subst c.
  change (push false "=" []) with (@nil ascii) in H.
  apply match_here_rep_inv in H as (ws2 & s4 & -> & Hws2 & H).
  rewrite pushes_not_capturing in H.
  apply match_here_chr_inv in H as (c & s5 & -> & Hc & H).
  unfold accepts in Hc. apply Ascii.eqb_eq in Hc. subst c.
  rewrite match_here_group_start in H.
  apply match_here_chr_inv in H as (c & s6 & -> & Hc & H).
  change (push true c []) with [c] in H.
  apply match_here_rep_inv in H as (w & s7 & -> & Hw & H).
  apply group_end_match in H as (post & -> & ->).
  rewrite pushes_capturing, rev_app_distr, rev_involutive.
  exists ws1, ws2, post. repeat split; try assumption.
  - discriminate.
  - simpl. intros [E|E].
    + apply accepts_not_lit in Hc. now apply Hc.
    + now apply forallb_not_lit in Hw.
Qed.

Lemma version_match (key ws1 ws2 g post : text) :
  spaces ws1 -> spaces ws2 -> g <> [] -> ~ In dquote g ->
  match_here (map (fun c => Chr (Lit c)) key ++ version_tail) false []
    (key ++ ws1 ++ str "=" ++ ws2 ++ [dquote] ++ g ++ [dquote] ++ post) =
  Some g.
Proof.
  intros Hws1 Hws2 Hne Hg.
  destruct g as [|c w]; [now destruct Hne|].
  rewrite match_here_word, pushes_not_capturing.
  unfold version_tail, plus. cbn [app].
  rewrite match_here_rep.
  apply rep_loop_greedy_run; [exact Hws1|reflexivity|].
  rewrite pushes_not_capturing.
  change (str "=" ++ ws2 ++ dquote :: c :: w ++ dquote :: post)
    with ("="%char :: ws2 ++ dquote :: c :: w ++ dquote :: post).
  rewrite match_here_chr, match_here_rep.
  apply rep_loop_greedy_run; [exact Hws2|reflexivity|].
  rewrite pushes_not_capturing, match_here_chr, match_here_group_start.
  rewrite match_here_chr_accepted
    by (apply accepts_not_lit; intros ->; apply Hg; now left).
  rewrite match_here_rep.
  apply rep_loop_greedy_run.
  - apply forallb_not_lit. intros E. apply Hg. now right.
  - reflexivity.
  - apply group_end_match. exists post. split; [reflexivity|].
    rewrite pushes_capturing. unfold push.
    now rewrite rev_app_distr, rev_involutive.
Qed.

Lemma version_tail_has_double_quote (key : text) :
  In (Chr (Lit dquote)) (map (fun c => Chr (Lit c)) key ++ version_tail).
Proof. apply in_or_app. right. simpl. tauto. Qed.

(** X5.  A token found by either version pattern is not empty and holds
    no double quote; it is the text between two double quotes that follow
    the key ([version] or [__version__]), optional white space, an equals
    sign and optional white space, at the leftmost place where the
    pattern matches. *)
Theorem version_token_shape :
  forall content version : text,
    (search pyproject_version_re content = Some version ->
     version <> [] /\ ~ In dquote version /\
     exists pre ws1 ws2 post,
       content = pre ++ str "version" ++ ws1 ++ str "=" ++ ws2 ++
                 [dquote] ++ version ++ [dquote] ++ post /\
       no_match_before pyproject_version_re content (List.length pre) = true /\
       spaces ws1 /\ spaces ws2) /\
    (search version_py_re content = Some version ->
     version <> [] /\ ~ In dquote version /\
     exists pre ws1 ws2 post,
       content = pre ++ str "__version__" ++ ws1 ++ str "=" ++ ws2 ++
                 [dquote] ++ version ++ [dquote] ++ post /\
       no_match_before version_py_re content (List.length pre) = true /\
       spaces ws1 /\ spaces ws2).
Proof.
  intros content version. split; intros Hs;
    apply search_inv in Hs as (pre & t & -> & Hm & Hno).
  - rewrite pyproject_version_re_eq in Hm.
    apply version_match_inv in Hm
      as (ws1 & ws2 & post & -> & H1 & H2 & Hne & Hq).
    split; [assumption|]. split; [assumption|].
    now exists pre, ws1, ws2, post.
  - rewrite version_py_re_eq in Hm.
    apply version_match_inv in Hm
      as (ws1 & ws2 & post & -> & H1 & H2 & Hne & Hq).
    split; [assumption|]. split; [assumption|].
    now exists pre, ws1, ws2, post.
Qed.

(** X6.  Where the key, optional white space, an equals sign, optional
    white space and a quoted token that is not empty stand in the file,
    and the pattern matches nowhere to the left, that token is the one
    found; what precedes the key does not matter, so the key may be the
    end of a longer word. *)
Theorem version_token_is_leftmost_match :
  forall pre ws1 ws2 version post : text,
    spaces ws1 -> spaces ws2 -> version <> [] -> ~ In dquote version ->
    (let content := pre ++ str "version" ++ ws1 ++ str "=" ++ ws2 ++
                    [dquote] ++ version ++ [dquote] ++ post in
     no_match_before pyproject_version_re content (List.length pre) = true ->
     search pyproject_version_re content = Some version) /\
    (let content := pre ++ str "__version__" ++ ws1 ++ str "=" ++ ws2 ++
                    [dquote] ++ version ++ [dquote] ++ post in
     no_match_before version_py_re content (List.length pre) = true ->
     search version_py_re content = Some version).
Proof.
  intros pre ws1 ws2 version post H1 H2 Hne Hq. split; intros content Hno;
    subst content; rewrite (search_skip _ _ _ Hno); apply search_here.
  - rewrite pyproject_version_re_eq. now apply version_match.
  - rewrite version_py_re_eq. now apply version_match.
Qed.

(** A [target-version] line above the [version] line: the token found is
    the one of [target-version]. *)
Lemma version_token_is_leftmost_match_witness :
  let content :=
    lines [str "[tool.black]"; str "target-version = " ++ quoted "py38";
           str "[project]"; str "version = " ++ quoted "0.1.0"] in
  search pyproject_version_re content = Some (str "py38").
Proof.
  intros content.
  refine (proj1 (version_token_is_leftmost_match
                   (lines [str "[tool.black]"] ++ str "target-")
                   (str " ") (str " ") (str "py38")
                   (newline :: lines [str "[project]";
                                      str "version = " ++ quoted "0.1.0"])
                   eq_refl eq_refl _ _) _).
  - discriminate.
  - vm_compute. intuition discriminate.
  - reflexivity.
Defined.

(** X7.  A file without any double quote holds no version token, so a
    version written between single quotes is not found: the check prints
    that the version was not found in that file and returns [False]. *)
Theorem check_version_consistency_needs_double_quotes :
  forall fs : filesystem,
    (forall content,
        fs pyproject_path = File content ->
        ~ In dquote content ->
        check_version_consistency fs =
          ([CheckingVersion; VersionNotFoundInPyproject], Ret false)) /\
    (forall content version content',
        fs pyproject_path = File content ->
        search pyproject_version_re content = Some version ->
        fs version_path = File content' ->
        ~ In dquote content' ->
        check_version_consistency fs =
          ([CheckingVersion; VersionNotFoundInVersionPy], Ret false)).
Proof.
  intros fs. split.
  - intros content Hp Hq. rewrite check_version_consistency_cases, Hp.
    rewrite pyproject_version_re_eq.
    now rewrite (search_without_literal _ content dquote
                   (version_tail_has_double_quote _) Hq).
  - intros content version content' Hp Hs Hv Hq.
    rewrite check_version_consistency_cases, Hp, Hs, Hv.
    rewrite version_py_re_eq.
    now rewrite (search_without_literal _ content' dquote
                   (version_tail_has_double_quote _) Hq).
Qed.

Lemma check_version_consistency_needs_double_quotes_witness :
  let pyproject := lines [str "[project]"; str "version = " ++ quoted "0.2.0"] in
  let version_py := lines [str "__version__ = '0.2.0'"] in
  check_version_consistency (version_files pyproject version_py) =
    ([CheckingVersion; VersionNotFoundInVersionPy], Ret false).
Proof.
  intros pyproject version_py.
  refine (proj2 (check_version_consistency_needs_double_quotes
                   (version_files pyproject version_py))
            pyproject (str "0.2.0") version_py eq_refl eq_refl eq_refl _).
  vm_compute. intuition discriminate.
Defined.

(** ** The lists of missing fields and sections *)

(** X8.  On a metadata document that lacks at least one required field,
    the metadata check returns [False] and prints one list that holds
    exactly the required fields that occur neither followed by a space
    and an equals sign nor followed by an equals sign, each once, in the
    order of the fixed list. *)
Theorem check_package_metadata_lists_all_missing :
  forall (fs : filesystem) (doc : text),
    fs pyproject_path = File doc ->
    (exists field,
        In field required_fields /\
        ~ occurs (str (field ++ " =")) doc /\
        ~ occurs (str (field ++ "=")) doc) ->
    exists missing,
      check_package_metadata fs =
        ([CheckingMetadata; MissingMetadataFields missing], Ret false) /\
      (forall f,
          In f missing <->
          In f required_fields /\
          ~ occurs (str (f ++ " =")) doc /\ ~ occurs (str (f ++ "=")) doc) /\
      NoDup missing /\
      missing = filter (field_absent doc) required_fields.
Proof.
  intros fs doc Hfs (field & Hin & Habs).
  exists (missing_fields doc).
  assert (Hmem : forall f,
             In f (missing_fields doc) <->
             In f required_fields /\
             ~ occurs (str (f ++ " =")) doc /\ ~ occurs (str (f ++ "=")) doc).
  { intros f. now rewrite missing_fields_filter, filter_In, field_absent_iff. }
  assert (Hfield : In field (missing_fields doc)) by now apply Hmem.
  rewrite check_package_metadata_cases, Hfs.
  destruct (missing_fields doc) as [|f0 l] eqn:Hm; [destruct Hfield|].
  cbn [truthy]. split; [reflexivity|]. split; [exact Hmem|].
  rewrite <- Hm, missing_fields_filter.
  split; [|reflexivity].
  apply NoDup_filter, required_fields_NoDup.
Qed.

Lemma check_package_metadata_lists_all_missing_witness :
  let doc := lines [str "[project]";
                    str "name = " ++ quoted "pkg";
                    str "version = " ++ quoted "0.1.0";
                    str "description = " ++ quoted "demo";
                    str "requires-python = " ++ quoted ">=3.8";
                    str "dependencies = []"] in
  let fs := single_file pyproject_path doc in
  exists missing,
    check_package_metadata fs =
      ([CheckingMetadata; MissingMetadataFields missing], Ret false) /\
    missing = ["authors"; "license"]%string.
Proof.
  intros doc fs.
  destruct (check_package_metadata_lists_all_missing fs doc eq_refl)
    as (missing & Hc & _ & _ & Hm).
  - exists "license"%string. split; [simpl; tauto|].
    apply field_absent_iff. reflexivity.
  - exists missing. split; [exact Hc|]. rewrite Hm. reflexivity.
Defined.

(** X9.  On a readme that lacks at least one of the three keywords, the
    readme check returns [False] and prints one list that holds exactly
    the keywords that occur in no letter case, each once, in the order
    installation, usage, example. *)
Theorem check_readme_lists_all_missing :
  forall (fs : filesystem) (readme : text),
    fs readme_path = File readme ->
    (exists section,
        In section required_sections /\
        ~ occurs_ignoring_case (str section) readme) ->
    exists missing,
      check_readme fs =
        ([CheckingReadme; ReadmeMissingSections missing], Ret false) /\
      (forall s,
          In s missing <->
          In s required_sections /\
          ~ occurs_ignoring_case (str s) readme) /\
      NoDup missing /\
      missing =
        filter (fun s => negb (contains (str s) (lower readme)))
               required_sections.
Proof.
  intros fs readme Hfs (section & Hin & Habs).
  exists (missing_sections (lower readme)).
  assert (Hmem : forall s,
             In s (missing_sections (lower readme)) <->
             In s required_sections /\
             ~ occurs_ignoring_case (str s) readme).
  { intros s. rewrite missing_sections_filter, filter_In, negb_true_iff.
    split.
    - intros [Hs Hc]. split; [assumption|].
      apply contains_lower_false_iff in Hc; [assumption|].
      now apply required_sections_lowercase.
    - intros [Hs Hc]. split; [assumption|].
      apply contains_lower_false_iff; [|assumption].
      now apply required_sections_lowercase. }
  assert (Hsec : In section (missing_sections (lower readme)))
    by now apply Hmem.
  rewrite check_readme_cases, Hfs.
  destruct (missing_sections (lower readme)) as [|s0 l] eqn:Hm;
    [destruct Hsec|].
  cbn [truthy]. split; [reflexivity|]. split; [exact Hmem|].
  rewrite <- Hm, missing_sections_filter.
  split; [|reflexivity].
  apply NoDup_filter. unfold required_sections.
  repeat (constructor; [simpl; intuition discriminate|]). constructor.
Qed.

Lemma check_readme_lists_all_missing_witness :
  let readme := lines [str "# Demo"; str "## USAGE"] in
  let fs := single_file readme_path readme in
  exists missing,
    check_readme fs =
      ([CheckingReadme; ReadmeMissingSections missing], Ret false) /\
    missing = ["installation"; "example"]%string.
Proof.
  intros readme fs.
  destruct (check_readme_lists_all_missing fs readme eq_refl)
    as (missing & Hc & _ & _ & Hm).
  - exists "example"%string. split; [simpl; tauto|].
    apply contains_lower_false_iff; reflexivity.
  - exists missing. split; [exact Hc|]. rewrite Hm. reflexivity.
Defined.

(** ** The search path of the import verifier *)

Lemma existsb_eqb_In (p : string) (l : list string) :
  existsb (String.eqb p) l = true <-> In p l.
Proof.
  rewrite existsb_exists. split.
  - intros (x & Hx & E). apply String.eqb_eq in E. now subst.
  - intros H. exists p. split; [assumption|apply String.eqb_refl].
Qed.

(** X11.  After the search-path step the [src] directory is on the path;
    it is put in front when it was not there and the path is left as it
    was when it was there; doing the step twice is doing it once; no
    other entry is added, removed or moved; and a path without
    repetitions stays so. *)
Theorem add_src_path_properties :
  forall (src_path : string) (sys_path : list string),
    In src_path (add_src_path src_path sys_path) /\
    (In src_path sys_path -> add_src_path src_path sys_path = sys_path) /\
    (~ In src_path sys_path ->
     add_src_path src_path sys_path = src_path :: sys_path) /\
    add_src_path src_path (add_src_path src_path sys_path) =
      add_src_path src_path sys_path /\
    filter (fun p => negb (String.eqb src_path p))
           (add_src_path src_path sys_path) =
      filter (fun p => negb (String.eqb src_path p)) sys_path /\
    (NoDup sys_path -> NoDup (add_src_path src_path sys_path)).
Proof.
  intros src_path sys_path. unfold add_src_path.
  destruct (existsb (String.eqb src_path) sys_path) eqn:He.
  - pose proof (proj1 (existsb_eqb_In _ _) He) as Hin.
    rewrite He. repeat split; try tauto.
  - assert (Hnot : ~ In src_path sys_path).
    { intros Hin. apply existsb_eqb_In in Hin. congruence. }
    repeat split; try tauto.
    + now left.
    + cbn [existsb]. now rewrite String.eqb_refl.
    + cbn [filter]. now rewrite String.eqb_refl.
    + intros Hnd. now constructor.
Qed.

(** ** What the checklist depends on *)

Lemma run_checks_ext (cs : list (string * check)) (fs fs' : filesystem)
  (st : loop_state) :
  (forall c, In c cs -> snd c fs = snd c fs') ->
  run_checks cs fs st = run_checks cs fs' st.
Proof.
  revert st. induction cs as [|[name f] rest IH]; intros st H;
    [reflexivity|].
  cbn [run_checks].
  pose proof (H (name, f) (or_introl eq_refl)) as Hf. cbn [snd] in Hf.
  rewrite Hf. destruct (f fs') as [out r]. apply IH.
  intros c Hc. apply H. now right.
Qed.

(** X14.  The checklist looks at the seven required paths and at nothing
    else: two working directories that agree on them give the same
    console, the same table and the same exit code. *)
Theorem main_depends_on_required_files_only :
  forall fs fs' : filesystem,
    (forall p, In p required_files -> fs p = fs' p) ->
    main fs = main fs'.
Proof.
  intros fs fs' H.
  assert (Hpy : fs pyproject_path = fs' pyproject_path)
    by (apply H; simpl; tauto).
  assert (Hrd : fs readme_path = fs' readme_path)
    by (apply H; simpl; tauto).
  assert (Hvp : fs version_path = fs' version_path)
    by (apply H; simpl; tauto).
  assert (Hmiss : missing_files fs = missing_files fs').
  { rewrite !missing_files_filter. apply filter_ext_in.
    intros p Hp. unfold path_exists. now rewrite (H p Hp). }
  unfold main, main_with.
  rewrite (run_checks_ext checks fs fs'); [reflexivity|].
  unfold checks. intros c [<-|[<-|[<-|[<-|[<-|[]]]]]]; cbn [snd].
  - now rewrite !check_version_consistency_cases, Hpy, Hvp.
  - now rewrite !check_required_files_cases, Hmiss.
  - now rewrite !check_package_metadata_cases, Hpy.
  - now rewrite !check_readme_cases, Hrd.
  - now rewrite !check_dependencies_cases, Hpy.
Qed.

Lemma main_depends_on_required_files_only_witness :
  ready_tree_with_notes "notes.txt"%string <> ready_tree "notes.txt"%string /\
  main ready_tree_with_notes = main ready_tree.
Proof.
  split; [discriminate|].
  apply main_depends_on_required_files_only.
  intros p [<-|[<-|[<-|[<-|[<-|[<-|[<-|[]]]]]]]]; reflexivity.
Defined.

(** ** The console of [main] *)

Lemma console_main (fs : filesystem) :
  console (main fs) =
    (Banner ::
     (emitted "Version Consistency" (check_version_consistency fs) ++
      emitted "Required Files" (check_required_files fs) ++
      emitted "Package Metadata" (check_package_metadata fs) ++
      emitted "README Content" (check_readme fs) ++
      emitted "Dependencies" (check_dependencies fs)) ++
     [SummaryHeader;
      SummaryLine "Version Consistency" (passed (check_version_consistency fs));
      SummaryLine "Required Files" (passed (check_required_files fs));
      SummaryLine "Package Metadata" (passed (check_package_metadata fs));
      SummaryLine "README Content" (passed (check_readme fs));
      SummaryLine "Dependencies" (passed (check_dependencies fs))]) ++
    [if passed (check_version_consistency fs) &&
        passed (check_required_files fs) &&
        passed (check_package_metadata fs) &&
        passed (check_readme fs) &&
        passed (check_dependencies fs)
     then AllChecksPassed else SomeChecksFailed].
Proof.
  unfold main. rewrite main_with_console. unfold checks.
  cbn [flat_map map fst snd forallb].
  rewrite andb_true_r, !andb_assoc, app_nil_r. cbn [app].
  rewrite <- !app_assoc. reflexivity.
Qed.

Lemma emitted_version_printed_by_check (name : string) (fs : filesystem) :
  Forall (fun m => printed_by_check m = true)
         (emitted name (check_version_consistency fs)).
Proof.
  rewrite check_version_consistency_cases. unfold emitted, output, result.
  destruct (fs pyproject_path) as [|err|c];
    [repeat constructor|repeat constructor|].
  destruct (search pyproject_version_re c) as [a|]; [|repeat constructor].
  destruct (fs version_path) as [|err|c'];
    [repeat constructor|repeat constructor|].
  destruct (search version_py_re c') as [b|]; [|repeat constructor].
  destruct (text_eqb a b); repeat constructor.
Qed.

Lemma emitted_required_files_printed_by_check (name : string)
  (fs : filesystem) :
  Forall (fun m => printed_by_check m = true)
         (emitted name (check_required_files fs)).
Proof.
  rewrite check_required_files_cases. unfold emitted, output, result.
  destruct (truthy (missing_files fs)); repeat constructor.
Qed.

Lemma emitted_metadata_printed_by_check (name : string) (fs : filesystem) :
  Forall (fun m => printed_by_check m = true)
         (emitted name (check_package_metadata fs)).
Proof.
  rewrite check_package_metadata_cases. unfold emitted, output, result.
  destruct (fs pyproject_path) as [|err|doc];
    [repeat constructor|repeat constructor|].
  destruct (truthy (missing_fields doc)); repeat constructor.
Qed.

Lemma emitted_readme_printed_by_check (name : string) (fs : filesystem) :
  Forall (fun m => printed_by_check m = true)
         (emitted name (check_readme fs)).
Proof.
  rewrite check_readme_cases. unfold emitted, output, result.
  destruct (fs readme_path) as [|err|readme];
    [repeat constructor|repeat constructor|].
  destruct (truthy (missing_sections (lower readme))); repeat constructor.
Qed.

Lemma emitted_dependencies_printed_by_check (name : string)
  (fs : filesystem) :
  Forall (fun m => printed_by_check m = true)
         (emitted name (check_dependencies fs)).
Proof.
  rewrite check_dependencies_cases. unfold emitted, output, result.
  destruct (fs pyproject_path) as [|err|doc];
    [repeat constructor|repeat constructor|].
  destruct (search dependencies_re doc) as [g|]; [|repeat constructor].
  destruct (contains (str "openai") (lower g)); repeat constructor.
Qed.

Lemma emitted_all_printed_by_check (fs : filesystem) :
  Forall (fun m => printed_by_check m = true)
    (emitted "Version Consistency" (check_version_consistency fs) ++
     emitted "Required Files" (check_required_files fs) ++
     emitted "Package Metadata" (check_package_metadata fs) ++
     emitted "README Content" (check_readme fs) ++
     emitted "Dependencies" (check_dependencies fs)).
Proof.
  apply Forall_app. split; [apply emitted_version_printed_by_check|].
  apply Forall_app. split; [apply emitted_required_files_printed_by_check|].
  apply Forall_app. split; [apply emitted_metadata_printed_by_check|].
  apply Forall_app. split; [apply emitted_readme_printed_by_check|].
  apply emitted_dependencies_printed_by_check.
Qed.

Lemma not_printed_by_check_In (m : message) (l : list message) :
  Forall (fun m => printed_by_check m = true) l ->
  printed_by_check m = false -> ~ In m l.
Proof.
  intros Hl Hm Hin. rewrite Forall_forall in Hl.
  specialize (Hl m Hin). congruence.
Qed.

(** X10.  The success banner with the publishing steps is printed exactly
    when [main] returns 0, the failure banner exactly when it returns 1,
    and the banner is the last thing printed; the table shows a FAILED
    line exactly when [main] returns 1. *)
Theorem main_banner_matches_exit_code :
  forall fs : filesystem,
    (In AllChecksPassed (console (main fs)) <-> exit_code (main fs) = 0%Z) /\
    (In SomeChecksFailed (console (main fs)) <-> exit_code (main fs) = 1%Z) /\
    ((exists m, In m (console (main fs)) /\ is_failed_line m = true) <->
     exit_code (main fs) = 1%Z) /\
    last (console (main fs)) Banner =
      (if Z.eqb (exit_code (main fs)) 0
       then AllChecksPassed else SomeChecksFailed).
Proof.
  intros fs. rewrite console_main, main_exit_code_passed.
  pose proof (emitted_all_printed_by_check fs) as Hem.
  set (E := emitted "Version Consistency" (check_version_consistency fs) ++
            emitted "Required Files" (check_required_files fs) ++
            emitted "Package Metadata" (check_package_metadata fs) ++
            emitted "README Content" (check_readme fs) ++
            emitted "Dependencies" (check_dependencies fs)) in *.
  assert (HE : forall m, printed_by_check m = false -> ~ In m E)
    by (intros m Hm; now apply not_printed_by_check_In).
  clearbody E.
  set (p1 := passed (check_version_consistency fs)).
  set (p2 := passed (check_required_files fs)).
  set (p3 := passed (check_package_metadata fs)).
  set (p4 := passed (check_readme fs)).
  set (p5 := passed (check_dependencies fs)).
  clearbody p1 p2 p3 p4 p5.
  split; [|split; [|split]].
  - rewrite in_app_iff. cbn [In]. rewrite in_app_iff. cbn [In].
    pose proof (HE AllChecksPassed eq_refl).
    destruct (p1 && p2 && p3 && p4 && p5); intuition discriminate.
  - rewrite in_app_iff. cbn [In]. rewrite in_app_iff. cbn [In].
    pose proof (HE SomeChecksFailed eq_refl).
    destruct (p1 && p2 && p3 && p4 && p5); intuition discriminate.
  - split.
    + intros (m & Hin & Hm).
      destruct m as [| | | | | | | | | | | | | | | | | | | | | |
                     |n [|]| | | | | | ];
        try discriminate.
      pose proof (HE (SummaryLine n false) eq_refl) as Hnot.
      rewrite in_app_iff in Hin. cbn [In] in Hin.
      rewrite in_app_iff in Hin. cbn [In] in Hin.
      destruct Hin as [[H|[H|H]]|H]; try discriminate; try contradiction.
      * destruct H as [H|[H|[H|[H|[H|[H|[]]]]]]]; try discriminate;
          injection H as _ H; rewrite H, ?andb_false_r; reflexivity.
      * destruct (p1 && p2 && p3 && p4 && p5);
          destruct H as [H|[]]; discriminate.
    + intros Hexit.
      destruct p1 eqn:H1;
        [|exists (SummaryLine "Version Consistency" false); split;
          [rewrite in_app_iff; cbn [In]; rewrite in_app_iff; cbn [In]; tauto
          |reflexivity]].
      destruct p2 eqn:H2;
        [|exists (SummaryLine "Required Files" false); split;
          [rewrite in_app_iff; cbn [In]; rewrite in_app_iff; cbn [In]; tauto
          |reflexivity]].
      destruct p3 eqn:H3;
        [|exists (SummaryLine "Package Metadata" false); split;
          [rewrite in_app_iff; cbn [In]; rewrite in_app_iff; cbn [In]; tauto
          |reflexivity]].
      destruct p4 eqn:H4;
        [|exists (SummaryLine "README Content" false); split;
          [rewrite in_app_iff; cbn [In]; rewrite in_app_iff; cbn [In]; tauto
          |reflexivity]].
      destruct p5 eqn:H5;
        [discriminate
        |exists (SummaryLine "Dependencies" false); split;
          [rewrite in_app_iff; cbn [In]; rewrite in_app_iff; cbn [In]; tauto
          |reflexivity]].
  - rewrite last_last.
    now destruct (p1 && p2 && p3 && p4 && p5).
Qed.

(** ** The lines that report an absent file *)

Lemma not_found_version (name : string) (fs : filesystem) :
  filter is_not_found (emitted name (check_version_consistency fs)) =
    match fs pyproject_path with
    | Absent => [PyprojectNotFound]
    | Unreadable _ => []
    | File content =>
        match search pyproject_version_re content, fs version_path with
        | Some _, Absent => [VersionPyNotFound]
        | _, _ => []
        end
    end.
Proof.
  rewrite check_version_consistency_cases. unfold emitted, output, result.
  destruct (fs pyproject_path) as [|err|c]; [reflexivity|reflexivity|].
  destruct (search pyproject_version_re c) as [a|]; [|reflexivity].
  destruct (fs version_path) as [|err|c']; [reflexivity|reflexivity|].
  destruct (search version_py_re c') as [b|]; [|reflexivity].
  destruct (text_eqb a b); reflexivity.
Qed.

Lemma not_found_required_files (name : string) (fs : filesystem) :
  filter is_not_found (emitted name (check_required_files fs)) = [].
Proof.
  rewrite check_required_files_cases. unfold emitted, output, result.
  destruct (truthy (missing_files fs)); reflexivity.
Qed.

Lemma not_found_metadata (name : string) (fs : filesystem) :
  filter is_not_found (emitted name (check_package_metadata fs)) =
    match fs pyproject_path with
    | Absent => [PyprojectNotFound]
    | _ => []
    end.
Proof.
  rewrite check_package_metadata_cases. unfold emitted, output, result.
  destruct (fs pyproject_path) as [|err|doc]; [reflexivity|reflexivity|].
  destruct (truthy (missing_fields doc)); reflexivity.
Qed.

Lemma not_found_readme (name : string) (fs : filesystem) :
  filter is_not_found (emitted name (check_readme fs)) =
    match fs readme_path with
    | Absent => [ReadmeNotFound]
    | _ => []
    end.
Proof.
  rewrite check_readme_cases. unfold emitted, output, result.
  destruct (fs readme_path) as [|err|readme]; [reflexivity|reflexivity|].
  destruct (truthy (missing_sections (lower readme))); reflexivity.
Qed.

Lemma not_found_dependencies (name : string) (fs : filesystem) :
  filter is_not_found (emitted name (check_dependencies fs)) =
    match fs pyproject_path with
    | Absent => [PyprojectNotFound]
    | _ => []
    end.
Proof.
  rewrite check_dependencies_cases. unfold emitted, output, result.
  destruct (fs pyproject_path) as [|err|doc]; [reflexivity|reflexivity|].
  destruct (search dependencies_re doc) as [g|]; [|reflexivity].
  destruct (contains (str "openai") (lower g)); reflexivity.
Qed.

Lemma not_found_console (fs : filesystem) :
  filter is_not_found (console (main fs)) =
    match fs pyproject_path with
    | Absent => [PyprojectNotFound]
    | Unreadable _ => []
    | File content =>
        match search pyproject_version_re content, fs version_path with
        | Some _, Absent => [VersionPyNotFound]
        | _, _ => []
        end
    end ++
    match fs pyproject_path with
    | Absent => [PyprojectNotFound]
    | _ => []
    end ++
    match fs readme_path with
    | Absent => [ReadmeNotFound]
    | _ => []
    end ++
    match fs pyproject_path with
    | Absent => [PyprojectNotFound]
    | _ => []
    end.
Proof.
  rewrite console_main.
  rewrite filter_app. cbn [filter is_not_found].
  rewrite !filter_app.
  rewrite not_found_version, not_found_required_files, not_found_metadata,
    not_found_readme, not_found_dependencies.
  cbn [filter is_not_found].
  assert (Hlast : (if is_not_found
                        (if passed (check_version_consistency fs) &&
                            passed (check_required_files fs) &&
                            passed (check_package_metadata fs) &&
                            passed (check_readme fs) &&
                            passed (check_dependencies fs)
                         then AllChecksPassed else SomeChecksFailed)
                   then [if passed (check_version_consistency fs) &&
                            passed (check_required_files fs) &&
                            passed (check_package_metadata fs) &&
                            passed (check_readme fs) &&
                            passed (check_dependencies fs)
                         then AllChecksPassed else SomeChecksFailed]
                   else []) = []).
  { now destruct (passed (check_version_consistency fs) &&
                  passed (check_required_files fs) &&
                  passed (check_package_metadata fs) &&
                  passed (check_readme fs) &&
                  passed (check_dependencies fs)). }
  rewrite Hlast. cbn [app]. now rewrite !app_nil_r.
Qed.

(** X13.  On the console of [main]: the line saying that
    [pyproject.toml] was not found is printed exactly when that path is
    absent; the line for [README.md] exactly when that path is absent;
    the line for [_version.py] exactly when that path is absent and a
    token was found in [pyproject.toml].  So when the required-files
    check passes, no such line is printed by any check. *)
Theorem main_reports_absent_files :
  forall fs : filesystem,
    (In PyprojectNotFound (console (main fs)) <->
     fs pyproject_path = Absent) /\
    (In ReadmeNotFound (console (main fs)) <-> fs readme_path = Absent) /\
    (In VersionPyNotFound (console (main fs)) <->
     fs version_path = Absent /\
     exists content version,
       fs pyproject_path = File content /\
       search pyproject_version_re content = Some version) /\
    (result (check_required_files fs) = Ret true ->
     forall m, In m (console (main fs)) -> is_not_found m = false).
Proof.
  intros fs.
  assert (Hin : forall m, is_not_found m = true ->
                  (In m (console (main fs)) <->
                   In m (filter is_not_found (console (main fs))))).
  { intros m Hm. rewrite filter_In. tauto. }
  split; [|split; [|split]].
  - rewrite (Hin PyprojectNotFound eq_refl), not_found_console.
    destruct (fs pyproject_path) as [|err|c]; cbn [app In].
    + tauto.
    + destruct (fs readme_path); cbn [app In];
        intuition discriminate.
    + destruct (search pyproject_version_re c), (fs version_path),
        (fs readme_path); cbn [app In]; intuition discriminate.
  - rewrite (Hin ReadmeNotFound eq_refl), not_found_console.
    destruct (fs readme_path) as [|err|r].
    + destruct (fs pyproject_path) as [|err|c];
        [| |destruct (search pyproject_version_re c), (fs version_path)];
        cbn [app In]; tauto.
    + destruct (fs pyproject_path) as [|err'|c];
        [| |destruct (search pyproject_version_re c), (fs version_path)];
        cbn [app In]; intuition discriminate.
    + destruct (fs pyproject_path) as [|err'|c];
        [| |destruct (search pyproject_version_re c), (fs version_path)];
        cbn [app In]; intuition discriminate.
  - rewrite (Hin VersionPyNotFound eq_refl), not_found_console.
    destruct (fs pyproject_path) as [|err|c].
    + destruct (fs readme_path); cbn [app In]; split;
        try (intros [_ (? & ? & H & _)]; discriminate);
        intuition discriminate.
    + destruct (fs readme_path); cbn [app In]; split;
        try (intros [_ (? & ? & H & _)]; discriminate);
        intuition discriminate.
    + destruct (search pyproject_version_re c) as [a|] eqn:Hs.
      * destruct (fs version_path) as [|err|c'].
        -- split; [|destruct (fs readme_path); cbn [app In]; tauto].
           intros _. split; [reflexivity|]. now exists c, a.
        -- destruct (fs readme_path); cbn [app In]; split;
             try (intros [H _]; discriminate); intuition discriminate.
        -- destruct (fs readme_path); cbn [app In]; split;
             try (intros [H _]; discriminate); intuition discriminate.
      * assert (Hno : ~ (exists content version,
                            File c = File content /\
                            search pyproject_version_re content =
                              Some version)).
        { intros (c0 & v & E & Hv). injection E as <-. congruence. }
        destruct (fs version_path), (fs readme_path); cbn [app In]; split;
          try (intros [_ H]; now destruct (Hno H)); intuition discriminate.
  - intros Hreq m Hm.
    destruct (is_not_found m) eqn:Hnf; [|reflexivity]. exfalso.
    apply (Hin m Hnf) in Hm.
    assert (Hp : passed (check_required_files fs) = true)
      by (unfold passed; now rewrite Hreq).
    pose proof (proj1 (passed_required_files_iff fs) Hp) as Hall.
    assert (H1 : path_exists fs pyproject_path = true)
      by (apply Hall; simpl; tauto).
    assert (H2 : path_exists fs readme_path = true)
      by (apply Hall; simpl; tauto).
    assert (H3 : path_exists fs version_path = true)
      by (apply Hall; simpl; tauto).
    unfold path_exists in H1, H2, H3.
    rewrite not_found_console in Hm.
    destruct (fs pyproject_path) as [|err|c]; [discriminate| |];
      destruct (fs readme_path); try discriminate;
      destruct (fs version_path); try discriminate;
      try destruct (search pyproject_version_re c);
      cbn [app In] in Hm; tauto.
Qed.

(** ** One verdict per check *)

